(** * Real-time synchronisation core of the fleet-dispatch backend

    A shallow embedding of the parts of [utils/reportsHelper.js],
    [services/reportsSocketService.js], [socket.js] and [server.js] that the
    specification of the real-time core talks about, and the properties of
    that code.

    Conventions.
    - The finite JavaScript numbers are modelled by exact rationals [Q];
      rounding and overflow of IEEE doubles are not modelled, and there is
      one zero.  Counters and parsed integers are [Z].
    - Code that runs between two [await]s runs atomically on the single event
      loop, so a handler is a function from state to state and the
      environment (timers, the store, the report controller) is a list of
      events.
    - Uses of [Math.random()] take the drawn number as an argument. *)

From Stdlib Require Import QArith Qround Lqa.
From stdpp Require Import gmap strings list pretty sorting.

Local Open Scope Z_scope.

(** ** utils/reportsHelper.js *)
Module ReportsHelper.

(** A JavaScript number: a finite value (an exact rational here, with one
    zero), [NaN], or an infinity. *)
Inductive number : Type :=
| Fin (q : Q)
| NaN
| PInf
| NInf.

(** [x === 0] *)
Definition is_zero (x : number) : bool :=
  match x with Fin q => Qeq_bool q 0 | _ => false end.

(** The sign of a finite value, as [-1], [0] or [1]. *)
Definition sign (q : Q) : Z := Z.sgn (Qnum q).

(** An infinity of the sign [s * (+infinity)], [NaN] when [s] is zero. *)
Definition scaled_infinity (s : Z) : number :=
  if Z.eqb s 0 then NaN else if Z.ltb 0 s then PInf else NInf.

Definition sub (x y : number) : number :=
  match x, y with
  | NaN, _ | _, NaN => NaN
  | Fin a, Fin b => Fin (a - b)
  | PInf, PInf | NInf, NInf => NaN
  | PInf, _ | _, NInf => PInf
  | NInf, _ | _, PInf => NInf
  end.

Definition mul (x y : number) : number :=
  match x, y with
  | NaN, _ | _, NaN => NaN
  | Fin a, Fin b => Fin (a * b)
  | Fin a, PInf | PInf, Fin a => scaled_infinity (sign a)
  | Fin a, NInf | NInf, Fin a => scaled_infinity (- sign a)
  | PInf, PInf | NInf, NInf => PInf
  | PInf, NInf | NInf, PInf => NInf
  end.

(** [x / y]; a division by zero gives an infinity or [NaN]. *)
Definition div (x y : number) : number :=
  match x, y with
  | NaN, _ | _, NaN => NaN
  | Fin a, Fin b =>
      if Qeq_bool b 0 then scaled_infinity (sign a) else Fin (a / b)
  | Fin _, (PInf | NInf) => Fin 0
  | (PInf | NInf), (PInf | NInf) => NaN
  | PInf, Fin b => if Qlt_le_dec b 0 then NInf else PInf
  | NInf, Fin b => if Qlt_le_dec b 0 then PInf else NInf
  end.

(** [Math.round(x)]: the nearest integer, ties rounded towards +infinity. *)
Definition Math_round (x : number) : number :=
  match x with
  | Fin q => Fin (inject_Z (Qfloor (q + (1 # 2))))
  | _ => x
  end.

(** The arithmetic performed by a run of a helper: [Div a b] records that
    [a / b] is evaluated.  A run is a list of such operations, in order. *)
Inductive arith_op : Type :=
| Div (num den : number).

Definition divides_by_zero (o : arith_op) : bool :=
  match o with Div _ d => is_zero d end.

(** [calculatePercentageChange], with the divisions it performs.
<<
    if (previous === 0) return current === 0 ? 0 : 100
    return Math.round(((current - previous) / previous) * 100 * 10) / 10
>> *)
Definition calculatePercentageChange_run (current previous : number)
  : number * list arith_op :=
  if is_zero previous then
    (if is_zero current then Fin 0 else Fin 100, [])
  else
    let scaled :=
      mul (mul (div (sub current previous) previous) (Fin 100)) (Fin 10) in
    (div (Math_round scaled) (Fin 10),
     [Div (sub current previous) previous; Div (Math_round scaled) (Fin 10)]).

Definition calculatePercentageChange (current previous : number) : number :=
  fst (calculatePercentageChange_run current previous).

Definition division_branch_reached (current previous : number) : bool :=
  match snd (calculatePercentageChange_run current previous) with
  | [] => false
  | _ :: _ => true
  end.

(** [formatCurrency] and [formatPercentage]
<<
    const formatCurrency = (amount) => Math.round(amount * 100) / 100
    const formatPercentage = (value) => Math.round(value * 10) / 10
>> *)
Definition formatCurrency (amount : number) : number :=
  div (Math_round (mul amount (Fin 100))) (Fin 100).

Definition formatPercentage (value : number) : number :=
  div (Math_round (mul value (Fin 10))) (Fin 10).

(** Two numbers are the same number: equal finite values, or the same
    special value. *)
Definition same_number (x y : number) : Prop :=
  match x, y with
  | Fin a, Fin b => (a == b)%Q
  | NaN, NaN | PInf, PInf | NInf, NInf => True
  | _, _ => False
  end.

(** [Array.prototype.sort(compare)] is a stable sort: [a] is placed before
    [b] when [compare(a, b) < 0], after it when [compare(a, b) > 0], and
    equal elements keep their order.  For a consistent comparator this
    fixes the result, which the stable insertion sort below computes. *)
Section Sort.
Context {A : Type}.
Variable compare : A -> A -> Q.

Fixpoint sort_insert (x : A) (l : list A) : list A :=
  match l with
  | [] => [x]
  | y :: rest =>
      if Qlt_le_dec 0 (compare x y) then y :: sort_insert x rest
      else x :: y :: rest
  end.

Definition Array_sort (l : list A) : list A := foldr sort_insert [] l.

(** The comparator lets [a] stand before [b]. *)
Definition in_order (a b : A) : Prop := (compare a b <= 0)%Q.
End Sort.

Section Rankings.
(** The fields of a driver row other than the three the score reads. *)
Variable info : Type.

Record driver : Type := {
  other : info;
  completionRate : Q;
  totalEarnings : Q;
  totalRides : Q
}.

(** [{ ...driver, score }] *)
Record scored : Type := {
  base : driver;
  score : Q
}.

(** [{ ...driver, rank }] *)
Record ranked : Type := {
  row : scored;
  rank : Z
}.

Definition with_score (d : driver) : scored :=
  {| base := d;
     score := (completionRate d * (4 # 10) + totalEarnings d * (1 # 10000)
               + totalRides d * (1 # 10))%Q |}.

(** [(a, b) => b.score - a.score] *)
Definition by_score_desc (a b : scored) : Q := (score b - score a)%Q.

(** [calculateDriverRankings]
<<
  drivers
    .map((driver) => ({ ...driver, score: ... }))
    .sort((a, b) => b.score - a.score)
    .map((driver, index) => ({ ...driver, rank: index + 1 }))
>> *)
Definition calculateDriverRankings (drivers : list driver) : list ranked :=
  imap (fun index d => {| row := d; rank := Z.of_nat index + 1 |})
       (Array_sort by_score_desc (map with_score drivers)).
End Rankings.

Arguments other {info} _.
Arguments completionRate {info} _.
Arguments totalEarnings {info} _.
Arguments totalRides {info} _.
Arguments base {info} _.
Arguments score {info} _.
Arguments row {info} _.
Arguments rank {info} _.
Arguments with_score {info} _.
Arguments by_score_desc {info} _ _.
Arguments calculateDriverRankings {info} _.

End ReportsHelper.

(** ** JavaScript values

    The payloads that travel through the validators, the cache and the
    dispatcher are dynamically typed.  Objects are finite maps from property
    names to values. *)
Module Js.

#[local] Set Warnings "-register-all".

Inductive value : Type :=
| VUndefined
| VNull
| VBool (b : bool)
| VNum (q : Q)
| VNaN
| VStr (s : string)
| VArr (elems : list value)
| VObj (fields : gmap string value).

(** ToBoolean: what [if (v)], [!v], [a && b] and [a || b] test. *)
Definition truthy (v : value) : bool :=
  match v with
  | VUndefined | VNull | VNaN => false
  | VBool b => b
  | VNum q => negb (Qeq_bool q 0)
  | VStr s => negb (String.eqb s "")
  | VArr _ | VObj _ => true
  end.

Definition typeof (v : value) : string :=
  match v with
  | VUndefined => "undefined"
  | VNull | VArr _ | VObj _ => "object"
  | VBool _ => "boolean"
  | VNum _ | VNaN => "number"
  | VStr _ => "string"
  end.

Definition isArray (v : value) : bool :=
  match v with VArr _ => true | _ => false end.

(** [v !== undefined] *)
Definition defined (v : value) : bool :=
  match v with VUndefined => false | _ => true end.

(** [typeof v === "number"] *)
Definition is_number (v : value) : bool :=
  match v with VNum _ | VNaN => true | _ => false end.

(** [v !== null && v !== undefined] *)
Definition non_null (v : value) : bool :=
  match v with VUndefined | VNull => false | _ => true end.

(** [a && b] and [a || b] return one of their operands. *)
Definition and (a b : value) : value := if truthy a then b else a.
Definition or (a b : value) : value := if truthy a then a else b.

(** The own enumerable properties of a value, which is what the spread
    [{...v}] copies: the fields of an object, the indexed elements of an
    array, the indexed characters of a string, nothing otherwise. *)
Definition own_enumerable (v : value) : gmap string value :=
  match v with
  | VObj fs => fs
  | VArr es => list_to_map (imap (fun i e => (pretty i, e)) es)
  | VStr s =>
      list_to_map
        (imap (fun i c => (pretty i, VStr (String c EmptyString)))
              (String.list_ascii_of_string s))
  | _ => ∅
  end.

(** Property read [v.k] on a value that is neither [null] nor [undefined]
    (reading a property of those throws; every read below is guarded). *)
Definition get (v : value) (k : string) : value :=
  match v with
  | VObj fs => default VUndefined (fs !! k)
  | VArr es =>
      if String.eqb k "length" then VNum (inject_Z (Z.of_nat (length es)))
      else default VUndefined (own_enumerable v !! k)
  | VStr s =>
      if String.eqb k "length" then VNum (inject_Z (Z.of_nat (String.length s)))
      else default VUndefined (own_enumerable v !! k)
  | _ => VUndefined
  end.

(** [{...v, k: x}] *)
Definition spread_with (v : value) (k : string) (x : value) : value :=
  VObj (<[k := x]> (own_enumerable v)).

(** [Object.keys(v).length > 0] *)
Definition has_keys (v : value) : bool :=
  negb (Nat.eqb (size (own_enumerable v)) 0).

(** [x > 0] on dynamic values is [ToNumber(x) > 0], false on [NaN]. *)
Definition gt_zero (ToNumber : value -> option Q) (v : value) : bool :=
  match ToNumber v with
  | Some q => if Qlt_le_dec 0 q then true else false
  | None => false
  end.

End Js.

(** ** services/reportsSocketService.js *)
Module ReportsSocketService.
Import Js.

(** An entry of [connectedClients] (the socket itself is its key). *)
Record client : Type := {
  filters : value;
  lastActivity : Z
}.

(** The fields of [ReportsSocketService].  [connectedClients] is a [Map],
    which iterates in insertion order. *)
Record service : Type := {
  connectedClients : list (string * client);
  lastDataCache : gmap string value;
  broadcastInProgress : bool
}.

Definition set_cache (k : string) (v : value) (st : service) : service :=
  {| connectedClients := connectedClients st;
     lastDataCache := <[k := v]> (lastDataCache st);
     broadcastInProgress := broadcastInProgress st |}.

Definition set_in_progress (b : bool) (st : service) : service :=
  {| connectedClients := connectedClients st;
     lastDataCache := lastDataCache st;
     broadcastInProgress := b |}.

Definition set_clients (cs : list (string * client)) (st : service) : service :=
  {| connectedClients := cs;
     lastDataCache := lastDataCache st;
     broadcastInProgress := broadcastInProgress st |}.

(** [new ReportsSocketService(io)] *)
Definition constructor : service :=
  {| connectedClients := []; lastDataCache := ∅; broadcastInProgress := false |}.

(** What a handler does to the outside, in order. *)
Inductive effect : Type :=
| SocketEmit (socket event : string) (payload : value)
| IoEmit (event : string) (payload : value)
| ControllerCall (method : string) (query : value).

Definition is_store_access (e : effect) : bool :=
  match e with ControllerCall _ _ => true | _ => false end.

(** [isValidData(data, type)].  The [&&] chains return their deciding
    operand, so the result is a value that callers test for truthiness.
<<
    if (!data || typeof data !== "object") return false
    switch (type) {
      case "summary":
        return data.totalEarnings !== undefined && data.totalRides !== undefined
      case "earnings":
        return data.chartData && Array.isArray(data.chartData) && data.summary
      case "drivers":
        return data.tableData && Array.isArray(data.tableData)
      case "rides":
        return data.chartData && Array.isArray(data.chartData)
      default:
        return true
    }
>> *)
Definition isValidData (data : value) (type : string) : value :=
  if negb (truthy data) || negb (String.eqb (typeof data) "object") then
    VBool false
  else if String.eqb type "summary" then
    VBool (defined (get data "totalEarnings") && defined (get data "totalRides"))
  else if String.eqb type "earnings" then
    and (and (get data "chartData") (VBool (isArray (get data "chartData"))))
        (get data "summary")
  else if String.eqb type "drivers" then
    and (get data "tableData") (VBool (isArray (get data "tableData")))
  else if String.eqb type "rides" then
    and (get data "chartData") (VBool (isArray (get data "chartData")))
  else
    VBool true.

(** [if (this.isValidData(data, type))] *)
Definition accepts (data : value) (type : string) : bool :=
  truthy (isValidData data type).

(** The four report requests a client can make, with the validation type,
    the cache key and the event name each handler uses. *)
Inductive report : Type := Earnings | Drivers | Rides | Summary.

Definition type_of (r : report) : string :=
  match r with
  | Earnings => "earnings" | Drivers => "drivers"
  | Rides => "rides" | Summary => "summary"
  end.

Definition cache_key (r : report) : string :=
  match r with
  | Earnings => "earningsReport" | Drivers => "driverPerformance"
  | Rides => "ridesAnalysis" | Summary => "reportsSummary"
  end.

Definition data_event (r : report) : string :=
  match r with
  | Earnings => "earningsReportData" | Drivers => "driverPerformanceData"
  | Rides => "ridesAnalysisData" | Summary => "reportsSummaryData"
  end.

(** [this.lastDataCache.get(key)] *)
Definition cache_get (st : service) (k : string) : value :=
  default VUndefined (lastDataCache st !! k).

(** [mockRes.json(data)] of the request handlers
    ([requestEarningsReport], [requestDriverPerformance],
    [requestRidesAnalysis], [requestReportsSummary]). *)
Definition request_json (r : report) (socket : string) (data : value)
    (st : service) : service * list effect :=
  if accepts data (type_of r) then
    (set_cache (cache_key r) data st, [SocketEmit socket (data_event r) data])
  else
    let cachedData := cache_get st (cache_key r) in
    (st, if truthy cachedData
         then [SocketEmit socket (data_event r) cachedData] else []).

(** [mockRes.status().json(error)] of the request handlers. *)
Definition request_status_json (socket : string) (error : value)
    (st : service) : service * list effect :=
  (st, [SocketEmit socket "reportError" error]).

(** [sendCachedDataToClient(socket)] *)
Definition sendCachedDataToClient (socket : string) (st : service)
    : list effect :=
  let cachedSummary := cache_get st "reportsSummary" in
  let cachedEarnings := cache_get st "earningsReport" in
  let cachedDrivers := cache_get st "driverPerformance" in
  (if truthy cachedSummary && accepts cachedSummary "summary"
   then [SocketEmit socket "reportsSummaryData" cachedSummary] else [])
  ++ (if truthy cachedEarnings && accepts cachedEarnings "earnings"
      then [SocketEmit socket "earningsReportData" cachedEarnings] else [])
  ++ (if truthy cachedDrivers && accepts cachedDrivers "drivers"
      then [SocketEmit socket "driverPerformanceData" cachedDrivers] else []).

(** [connectedClients.set(id, v)]: a [Map] keeps the position of a key it
    already has and appends a new one. *)
Fixpoint map_set (id : string) (c : client) (cs : list (string * client))
    : list (string * client) :=
  match cs with
  | [] => [(id, c)]
  | (id', c') :: rest =>
      if String.eqb id' id then (id, c) :: rest
      else (id', c') :: map_set id c rest
  end.

Definition map_delete (id : string) (cs : list (string * client))
    : list (string * client) :=
  filter (fun p => negb (String.eqb (fst p) id)) cs.

(** [io.on("connection", ...)] at time [now]. *)
Definition on_connection (socket : string) (now : Z) (st : service)
    : service * list effect :=
  let st' :=
    set_clients
      (map_set socket {| filters := VObj ∅; lastActivity := now |}
               (connectedClients st)) st in
  (st', sendCachedDataToClient socket st').

(** The controller method behind each request. *)
Definition request_method (r : report) : string :=
  match r with
  | Earnings => "getEarningsReport" | Drivers => "getDriverPerformanceReport"
  | Rides => "getRidesAnalysisReport" | Summary => "getReportsSummary"
  end.

Fixpoint map_get (id : string) (cs : list (string * client)) : option client :=
  match cs with
  | [] => None
  | (id', c) :: rest => if String.eqb id' id then Some c else map_get id rest
  end.

(** The synchronous head of a request handler, up to the [await] of the
    controller call.  Only [requestEarningsReport] records the parameters as
    the client's filters.  When the client is no longer in
    [connectedClients] the property write throws and the handler answers
    with [reportError].
<<
      this.connectedClients.get(socket.id).filters = params
      this.connectedClients.get(socket.id).lastActivity = new Date()
      const mockReq = { query: params || {}, ... }
      await reportsController.getEarningsReport(mockReq, mockRes)
>> *)
Definition on_request (r : report) (socket : string) (params : value) (now : Z)
    (st : service) : service * list effect :=
  match map_get socket (connectedClients st) with
  | None =>
      (st, [SocketEmit socket "reportError"
              (VObj {[ "message" :=
                         VStr match r with
                              | Earnings => "Failed to fetch earnings report"
                              | Drivers => "Failed to fetch driver performance"
                              | Rides => "Failed to fetch rides analysis"
                              | Summary => "Failed to fetch reports summary"
                              end ]})])
  | Some c =>
      let c' := {| filters := match r with Earnings => params | _ => filters c end;
                   lastActivity := now |} in
      (set_clients (map_set socket c' (connectedClients st)) st,
       [ControllerCall (request_method r)
          match r with
          | Summary => VObj ∅
          | _ => or params (VObj ∅)
          end])
  end.

(** [cleanupInactiveConnections()] at time [now] (milliseconds). *)
Definition cleanupInactiveConnections (now : Z) (st : service) : service :=
  set_clients
    (filter (fun p => negb (30 * 60 * 1000 <? now - lastActivity (snd p)))
            (connectedClients st)) st.

(** [socket.on("disconnect", ...)] *)
Definition on_disconnect (socket : string) (st : service) : service :=
  set_clients (map_delete socket (connectedClients st)) st.

(** The loop that picks the filters for a broadcast: the first client with
    a non-empty [filters], else [{}]. *)
Fixpoint pick_filters (cs : list (string * client)) : value :=
  match cs with
  | [] => VObj ∅
  | (_, c) :: rest =>
      if truthy (filters c) && has_keys (filters c) then filters c
      else pick_filters rest
  end.

(** The two broadcast cycles. *)
Inductive cycle_kind : Type := SummaryCycle | EarningsCycle.

(** [mockReq.query] of a cycle. *)
Definition cycle_query (k : cycle_kind) (st : service) : value :=
  let clientFilters := pick_filters (connectedClients st) in
  match k with
  | SummaryCycle =>
      if truthy (get clientFilters "timeRange")
      then VObj {[ "timeRange" := get clientFilters "timeRange" ]}
      else VObj ∅
  | EarningsCycle =>
      if truthy (get clientFilters "timeRange")
      then clientFilters
      else VObj {[ "timeRange" := VStr "day" ]}
  end.

(** The report whose validation type and cache entry a cycle uses. *)
Definition cycle_report (k : cycle_kind) : report :=
  match k with
  | SummaryCycle => Summary
  | EarningsCycle => Earnings
  end.

Definition controller_method (k : cycle_kind) : string :=
  match k with
  | SummaryCycle => "getReportsSummary"
  | EarningsCycle => "getEarningsReport"
  end.

(** The synchronous head of [broadcastReportsSummary] and
    [broadcastEarningsReport], up to the [await] of the controller call.
    Returns the query handed to the controller when a cycle starts.
<<
    if (this.connectedClients.size === 0 || this.broadcastInProgress) return
    this.broadcastInProgress = true
    ...
    await reportsController.getReportsSummary(mockReq, mockRes)
>> *)
Definition broadcast_start (k : cycle_kind) (st : service)
    : service * option value :=
  if Nat.eqb (length (connectedClients st)) 0 || broadcastInProgress st then
    (st, None)
  else
    (set_in_progress true st, Some (cycle_query k st)).

Section Cycles.
(** ECMAScript's ToNumber, which [>] applies to its operands. *)
Variable ToNumber : value -> option Q.

(** [mockRes.json(data)] of a broadcast cycle whose request carried
    [query]. *)
Definition broadcast_json (k : cycle_kind) (query data : value)
    (st : service) : service * list effect :=
  match k with
  | SummaryCycle =>
      if accepts data "summary"
         && (gt_zero ToNumber (get data "totalEarnings")
             || gt_zero ToNumber (get data "totalRides"))
      then
        (set_in_progress false (set_cache "reportsSummary" data st),
         [IoEmit "reportsSummaryUpdate" data])
      else (set_in_progress false st, [])
  | EarningsCycle =>
      if accepts data "earnings" && truthy (get data "hasData") then
        let dataWithTimeRange :=
          spread_with data "timeRange"
                      (or (get query "timeRange") (VStr "day")) in
        (set_in_progress false
           (set_cache "earningsReport" dataWithTimeRange st),
         [IoEmit "earningsReportUpdate" dataWithTimeRange])
      else (set_in_progress false st, [])
  end.

(** How a call of the report controller ends: it answers through
    [res.json], through [res.status().json], throws, or returns without
    answering.  controllers/reportsController.js is not among the sources at
    hand; it is taken to answer a call at most once, as the last thing it
    does. *)
Inductive outcome : Type :=
| Json (data : value)
| StatusJson
| Throws
| NoAnswer.

(** The rest of a broadcast cycle, once its controller call has ended. *)
Definition broadcast_finish (k : cycle_kind) (query : value) (o : outcome)
    (st : service) : service * list effect :=
  match o with
  | Json data => broadcast_json k query data st
  | StatusJson | Throws => (set_in_progress false st, [])
  | NoAnswer => (st, [])
  end.

(** A started cycle that waits for its controller call.  [from_trigger]
    is set when [triggerReportsUpdate] awaits it. *)
Record cycle : Type := {
  kind : cycle_kind;
  query : value;
  from_trigger : bool
}.

(** The service on the event loop: its fields, the broadcast cycles whose
    controller call is in flight, and the number of pending
    [setTimeout(..., 1000)] callbacks of [triggerReportsUpdate]. *)
Record system : Type := {
  svc : service;
  running : list cycle;
  timers : nat
}.

Definition boot : system :=
  {| svc := constructor; running := []; timers := 0 |}.

(** What the event loop can run next. *)
Inductive event : Type :=
| Connection (socket : string) (now : Z)
| Disconnect (socket : string)
| Request (r : report) (socket : string) (params : value) (now : Z)
| RequestAnswered (r : report) (socket : string) (data : value)
| Cleanup (now : Z)
| PeriodicSummary
| PeriodicEarnings
| TriggerReportsUpdate
| DelayedEarnings
| ControllerReturns (i : nat) (o : outcome).

(** Calling [broadcastReportsSummary()] or [broadcastEarningsReport()]. *)
Definition call_broadcast (k : cycle_kind) (trig : bool) (s : system)
    : system * list effect :=
  match broadcast_start k (svc s) with
  | (st', Some q) =>
      ({| svc := st';
          running := running s ++ [{| kind := k; query := q; from_trigger := trig |}];
          timers := timers s |},
       [ControllerCall (controller_method k) q])
  | (st', None) =>
      ({| svc := st'; running := running s;
          timers := if trig then S (timers s) else timers s |}, [])
  end.

(** The interval callbacks of [startPeriodicUpdates]:
<<
    if (this.connectedClients.size > 0 && !this.broadcastInProgress) {
      await this.broadcastReportsSummary()
    }
>> *)
Definition periodic (k : cycle_kind) (s : system) : system * list effect :=
  if negb (Nat.eqb (length (connectedClients (svc s))) 0)
     && negb (broadcastInProgress (svc s))
  then call_broadcast k false s
  else (s, []).

(** [triggerReportsUpdate()]: the timeout for the earnings broadcast is
    set after the awaited summary broadcast has returned.
<<
    if (!this.broadcastInProgress) {
      await this.broadcastReportsSummary()
      setTimeout(async () => { await this.broadcastEarningsReport() }, 1000)
    }
>> *)
Definition triggerReportsUpdate (s : system) : system * list effect :=
  if negb (broadcastInProgress (svc s))
  then call_broadcast SummaryCycle true s
  else (s, []).

Definition step (e : event) (s : system) : system * list effect :=
  match e with
  | Connection socket now =>
      let '(st', out) := on_connection socket now (svc s) in
      ({| svc := st'; running := running s; timers := timers s |}, out)
  | Disconnect socket =>
      ({| svc := on_disconnect socket (svc s);
          running := running s; timers := timers s |}, [])
  | Request r socket params now =>
      let '(st', out) := on_request r socket params now (svc s) in
      ({| svc := st'; running := running s; timers := timers s |}, out)
  | RequestAnswered r socket data =>
      let '(st', out) := request_json r socket data (svc s) in
      ({| svc := st'; running := running s; timers := timers s |}, out)
  | Cleanup now =>
      ({| svc := cleanupInactiveConnections now (svc s);
          running := running s; timers := timers s |}, [])
  | PeriodicSummary => periodic SummaryCycle s
  | PeriodicEarnings => periodic EarningsCycle s
  | TriggerReportsUpdate => triggerReportsUpdate s
  | DelayedEarnings =>
      match timers s with
      | O => (s, [])
      | S n =>
          call_broadcast EarningsCycle false
            {| svc := svc s; running := running s; timers := n |}
      end
  | ControllerReturns i o =>
      match running s !! i with
      | None => (s, [])
      | Some c =>
          let '(st', out) := broadcast_finish (kind c) (query c) o (svc s) in
          ({| svc := st';
              running := delete i (running s);
              timers := if from_trigger c then S (timers s) else timers s |},
           out)
      end
  end.

Fixpoint run (es : list event) (s : system) : system * list effect :=
  match es with
  | [] => (s, [])
  | e :: rest =>
      let '(s1, out1) := step e s in
      let '(s2, out2) := run rest s1 in
      (s2, out1 ++ out2)
  end.

(** At most one cycle waits for its controller, and only while the guard
    is set. *)
Definition guarded (s : system) : Prop :=
  (length (running s) <= 1)%nat
  /\ (broadcastInProgress (svc s) = false -> running s = []).

(** The triggers of a broadcast cycle. *)
Definition is_trigger (e : event) : bool :=
  match e with
  | PeriodicSummary | PeriodicEarnings | TriggerReportsUpdate
  | DelayedEarnings => true
  | _ => false
  end.

End Cycles.

(** Every cached value passed the validation of its feed. *)
Definition cache_valid (st : service) : Prop :=
  forall k v, lastDataCache st !! k = Some v ->
              exists r, k = cache_key r /\ accepts v (type_of r) = true.

(** A client without filters, as the broadcast loop sees it. *)
Definition no_filters (c : client) : bool :=
  negb (truthy (filters c) && has_keys (filters c)).

(** What every broadcast to all clients carries. *)
Definition meaningful (ToNumber : value -> option Q) (e : effect) : Prop :=
  match e with
  | IoEmit event p =>
      (event = "reportsSummaryUpdate"
       /\ accepts p "summary" = true
       /\ gt_zero ToNumber (get p "totalEarnings")
          || gt_zero ToNumber (get p "totalRides") = true)
      \/ (event = "earningsReportUpdate"
          /\ accepts p "earnings" = true
          /\ truthy (get p "hasData") = true
          /\ truthy (get p "timeRange") = true)
  | _ => True
  end.

Definition is_broadcast (e : effect) : bool :=
  match e with IoEmit _ _ => true | _ => false end.

End ReportsSocketService.

(** ** socket.js: the driver simulation interval *)
Module Simulation.

(** A document of the [Driver] collection (models/TRdriverModel.js), with
    the fields the simulation reads or writes.  The optional trip fields
    are [None] when [null] or absent. *)
Record Driver : Type := {
  _id : string;
  name : string;
  status : string;
  location : option (Q * Q);
  speed : Q;
  batteryLevel : Q;
  completedTrips : Z;
  isOnline : bool;
  destination : option string;
  passenger : option string;
  tripId : option string;
  eta : option string;
  lastUpdate : Z
}.

(** The update document handed to [Driver.findByIdAndUpdate]. *)
Record Patch : Type := {
  p_location : Q * Q;
  p_speed : Q;
  p_batteryLevel : Q;
  p_eta : option string;
  p_status : string;
  p_destination : option string;
  p_passenger : option string;
  p_tripId : option string;
  p_completedTrips : Z;
  p_lastUpdate : Z
}.

(** utils/locationSimulator.js is not part of the sources at hand: the
    simulation takes it as a parameter.  A function that can throw returns
    an [option]; the three helpers the code probes for may be absent; a
    function that draws random numbers takes its draw as first argument.
    [simulateMovement] answers [Some None] when its result has no
    [location]. *)
Record locationSimulator : Type := {
  simulateMovement :
    Q -> option (Q * Q) -> string -> Q -> option (option ((Q * Q) * Q));
  simulateBatteryDrain : Q -> Q -> string -> Q -> option Q;
  getRandomDestination : option (Q -> string);
  getRandomPassenger : option (Q -> string);
  generateETA : option (Q -> Q -> string)
}.

(** The values of the [Math.random()] calls of one loop iteration, in
    source order, and the draws of the simulator's own helpers. *)
Record Draws : Type := {
  r_move : Q;
  r_battery : Q;
  r_eta : Q;
  r_assign : Q;
  r_destination : Q;
  r_passenger : Q;
  r_distance : Q;
  r_emergency : Q;
  r_resolve : Q
}.

(** [x || d] on numbers: zero is falsy. *)
Definition num_or (x d : Q) : Q := if Qeq_bool x 0 then d else x.
Definition int_or (x d : Z) : Z := if Z.eqb x 0 then d else x.

(** [if (s)] on an optional string: [null], [undefined] and [""] are
    falsy. *)
Definition str_truthy (s : option string) : bool :=
  match s with
  | Some s => negb (String.eqb s "")
  | None => false
  end.

(** [Math.random() < p] *)
Definition below (r p : Q) : bool := if Qlt_le_dec r p then true else false.

Definition is_digit (c : Ascii.ascii) : bool :=
  (48 <=? Ascii.nat_of_ascii c)%nat && (Ascii.nat_of_ascii c <=? 57)%nat.

(** [s.replace(/\D/g, "")], as the list of the digits of [s]. *)
Definition digits (s : string) : list Ascii.ascii :=
  filter (fun c => is_digit c) (String.list_ascii_of_string s).

(** [Number.parseInt] of a string of decimal digits (exact; a double loses
    digits beyond 2^53, which no comparison below depends on). *)
Definition parse_digits (ds : list Ascii.ascii) : Z :=
  fold_left (fun acc c => 10 * acc + (Z.of_nat (Ascii.nat_of_ascii c) - 48)) ds 0.

(** [Number.parseInt(driver.eta?.replace(/\D/g, "") || "0")] *)
Definition currentETA (e : option string) : Z :=
  match e with
  | None => 0
  | Some s =>
      match digits s with
      | [] => 0
      | ds => parse_digits ds
      end
  end.

(** [Date.now().toString().slice(-6)] *)
Definition last6 (now : Z) : string :=
  let s := pretty now in
  String.substring (String.length s - 6) 6 s.

(** The memory copy of a driver during an iteration. *)
Definition with_trip (d : Driver) (st : string)
    (dest pass trip : option string) (done : Z) : Driver :=
  {| _id := _id d; name := name d; status := st; location := location d;
     speed := speed d; batteryLevel := batteryLevel d;
     completedTrips := done; isOnline := isOnline d;
     destination := dest; passenger := pass; tripId := trip;
     eta := eta d; lastUpdate := lastUpdate d |}.

Definition with_status (d : Driver) (st : string) : Driver :=
  with_trip d st (destination d) (passenger d) (tripId d) (completedTrips d).

(** What the interval emits with [io.emit]. *)
Inductive emitted : Type :=
| EmergencyAlert (driverId : string) (driver : Driver) (message : string)
                 (timestamp : Z)
| DriversUpdate (data : list (option Driver)) (timestamp : Z)
| LocationUpdate (driverId : string) (loc : option (Q * Q)) (spd : Q)
                 (e : option string) (timestamp : Z).

Definition is_end_of_tick_broadcast (e : emitted) : bool :=
  match e with
  | EmergencyAlert _ _ _ _ => false
  | DriversUpdate _ _ | LocationUpdate _ _ _ _ _ => true
  end.

Section Tick.
Variable sim : locationSimulator.
Variable now : Z.

(** Movement and battery (the inner [try] block and its defaults). *)
Definition simulate_motion (r : Draws) (d : Driver) : (Q * Q) * Q * Q :=
  let location0 := default ((248607 # 10000)%Q, (670011 # 10000)%Q) (location d) in
  let speed0 := num_or (speed d) 0 in
  let battery0 := num_or (batteryLevel d) 80 in
  match simulateMovement sim (r_move r) (location d) (status d) (speed d) with
  | None => (location0, speed0, battery0)
  | Some movementResult =>
      let '(location1, speed1) :=
        match movementResult with
        | Some (l, s) => (l, s)
        | None => (location0, speed0)
        end in
      match simulateBatteryDrain sim (r_battery r) (batteryLevel d) (status d) speed1 with
      | None => (location1, speed1, battery0)
      | Some b => (location1, speed1, b)
      end
  end.

(** Trip progress: "Update ETA for active drivers". *)
Definition trip_progress (r : Draws) (d : Driver) : Driver * option string :=
  if String.eqb (status d) "active" && str_truthy (destination d) then
    let cur := currentETA (eta d) in
    if 1 <? cur then
      (d, Some (pretty (Z.max 1 (cur - Qfloor (r_eta r * 2))) +:+ " mins"))
    else
      (with_trip d "idle" None None None (int_or (completedTrips d) 0 + 1),
       None)
  else (d, eta d).

(** Trip assignment: "Randomly assign new trips to idle drivers". *)
Definition trip_assignment (r : Draws) (spd : Q) (de : Driver * option string)
    : Driver * option string :=
  let '(d, e) := de in
  if String.eqb (status d) "idle" && below (r_assign r) (1 # 10) then
    (with_trip d "active"
       (Some match getRandomDestination sim with
             | Some f => f (r_destination r)
             | None => "Random Location"
             end)
       (Some match getRandomPassenger sim with
             | Some f => f (r_passenger r)
             | None => "Random Passenger"
             end)
       (Some ("TRP" +:+ last6 now))
       (completedTrips d),
     Some match generateETA sim with
          | Some f => f (r_distance r * 10 + 2)%Q (num_or spd 40)
          | None => "15 mins"
          end)
  else (d, e).

(** Emergency injection, with the alert it emits at once. *)
Definition emergency_injection (r : Draws) (d : Driver)
    : Driver * list emitted :=
  if String.eqb (status d) "active" && below (r_emergency r) (5 # 1000) then
    let d' := with_status d "emergency" in
    (d', [EmergencyAlert (_id d') d'
            ("Emergency alert from " +:+ name d'
             +:+ " - Immediate assistance required") now])
  else (d, []).

(** Emergency resolution. *)
Definition emergency_resolution (r : Draws) (d : Driver) : Driver :=
  if String.eqb (status d) "emergency" && below (r_resolve r) (2 # 10)
  then with_status d "active" else d.

(** The body of the [for] loop up to the store write: the update document
    and the alerts emitted on the way. *)
Definition simulate_driver (r : Draws) (d : Driver) : Patch * list emitted :=
  let '(loc, spd, bat) := simulate_motion r d in
  let '(d1, e1) := trip_assignment r spd (trip_progress r d) in
  let '(d2, alerts) := emergency_injection r d1 in
  let d3 := emergency_resolution r d2 in
  ({| p_location := loc; p_speed := spd; p_batteryLevel := bat;
      p_eta := e1; p_status := status d3;
      p_destination := destination d3; p_passenger := passenger d3;
      p_tripId := tripId d3;
      p_completedTrips := int_or (completedTrips d3) 0;
      p_lastUpdate := now |},
   alerts).

(** The stored document after [$set]ting the update document. *)
Definition apply_patch (p : Patch) (d : Driver) : Driver :=
  {| _id := _id d; name := name d; status := p_status p;
     location := Some (p_location p); speed := p_speed p;
     batteryLevel := p_batteryLevel p;
     completedTrips := p_completedTrips p; isOnline := isOnline d;
     destination := p_destination p; passenger := p_passenger p;
     tripId := p_tripId p; eta := p_eta p;
     lastUpdate := p_lastUpdate p |}.

(** [Driver.findByIdAndUpdate(id, patch, { new: true })] on a collection
    that accepts the write: the updated document, or [null] when no
    document has this id. *)
Fixpoint findByIdAndUpdate (id : string) (p : Patch) (coll : list Driver)
    : option Driver * list Driver :=
  match coll with
  | [] => (None, [])
  | d :: rest =>
      if String.eqb (_id d) id then
        (Some (apply_patch p d), apply_patch p d :: rest)
      else
        let '(res, rest') := findByIdAndUpdate id p rest in
        (res, d :: rest')
  end.

(** [Driver.find({ isOnline: true })] *)
Definition find_online (coll : list Driver) : list Driver :=
  filter (fun d => isOnline d) coll.

(** What the environment decides in the [i]-th iteration of a tick: the
    random draws and whether the store rejects the write. *)
Record turn : Type := {
  draws : Draws;
  write_fails : bool
}.

(** How the [for] loop ends: normally, or with the exception of a
    rejected write, which leaves the loop and the [try] block. *)
Inductive loop_result : Type :=
| Finished (coll : list Driver) (updatedDrivers : list (option Driver))
           (out : list emitted)
| Thrown (coll : list Driver) (out : list emitted).

(** [for (const driver of drivers) { ... }], from iteration [i] on. *)
Fixpoint simulate_loop (env : nat -> turn) (i : nat) (drivers : list Driver)
    (coll : list Driver) (updatedDrivers : list (option Driver))
    (out : list emitted) : loop_result :=
  match drivers with
  | [] => Finished coll updatedDrivers out
  | driver :: rest =>
      let '(patch, alerts) := simulate_driver (draws (env i)) driver in
      if write_fails (env i) then Thrown coll (out ++ alerts)
      else
        let '(updatedDriver, coll') := findByIdAndUpdate (_id driver) patch coll in
        simulate_loop env (S i) rest coll'
                      (updatedDrivers ++ [updatedDriver]) (out ++ alerts)
  end.

(** [updatedDrivers.forEach(...)]: reading [driver.status] of a [null]
    entry throws and ends the tick. *)
Fixpoint location_updates (updatedDrivers : list (option Driver))
    : list emitted :=
  match updatedDrivers with
  | [] => []
  | None :: _ => []
  | Some driver :: rest =>
      (if String.eqb (status driver) "active"
       then [LocationUpdate (_id driver) (location driver) (speed driver)
                            (eta driver) now]
       else [])
      ++ location_updates rest
  end.

(** One run of the interval callback: the collection afterwards and
    everything emitted. *)
Definition simulation_tick (env : nat -> turn) (coll : list Driver)
    : list Driver * list emitted :=
  match simulate_loop env 0 (find_online coll) coll [] [] with
  | Thrown coll' out => (coll', out)
  | Finished coll' updatedDrivers out =>
      (coll',
       out ++ match updatedDrivers with
              | [] => []
              | _ :: _ =>
                  DriversUpdate updatedDrivers now
                  :: location_updates updatedDrivers
              end)
  end.

End Tick.

(** The three trip fields are present together or absent together. *)
Definition trip_fields_together (dest pass trip : option string) : Prop :=
  (dest = None /\ pass = None /\ trip = None)
  \/ (is_Some dest /\ is_Some pass /\ is_Some trip).

End Simulation.

(** ** server.js: dispatcher, room data and change streams *)
Module Server.
Import Js.

(** *** [realTimeEvents.broadcast] *)

(** [io.to(room).emit(event, payload)] and [io.emit(event, payload)]. *)
Inductive emission : Type :=
| RoomEmit (room event : string) (payload : value)
| AllEmit (event : string) (payload : value).

Definition delivered (e : emission) : value :=
  match e with RoomEmit _ _ p | AllEmit _ p => p end.

(** [broadcast(event, data, room = null)], where [timestamp] is the value
    of [new Date().toISOString()] at the call.
<<
    const payload = { ...data, timestamp: new Date().toISOString() }
    if (room) { io.to(room).emit(event, payload) }
    else { io.emit(event, payload) }
>> *)
Definition broadcast (timestamp : string) (event : string) (data : value)
    (room : option string) : emission :=
  let payload := spread_with data "timestamp" (VStr timestamp) in
  match room with
  | Some r =>
      if negb (String.eqb r "") then RoomEmit r event payload
      else AllEmit event payload
  | None => AllEmit event payload
  end.

(** *** The [join-room] handler and [sendRoomData] *)

(** An entry of the module's [connectedClients] map. *)
Record clientInfo : Type := {
  connectedAt : Z;
  rooms : list string;
  lastActivity : Z
}.

Inductive effect : Type :=
| SocketJoin (socket room : string)
| StoreFind (collection : string)
| DashboardQuery
| SocketEmit (socket event : string) (payload : value).

Definition is_store_access (e : effect) : bool :=
  match e with StoreFind _ | DashboardQuery => true | _ => false end.

Definition is_emit (e : effect) : bool :=
  match e with SocketEmit _ _ _ => true | _ => false end.

(** The persistent store and the dashboard controller, as the handlers see
    them: a listing either arrives or the query is rejected with a message;
    the dashboard controller hands a value to [res.json] or throws. *)
Record backend : Type := {
  find : string -> list value + string;
  getDashboardStats : option value
}.

Section Rooms.
Variable db : backend.
Variable timestamp : string.

(** [sendDashboardStats(socket)] *)
Definition sendDashboardStats (socket : string) : list effect :=
  DashboardQuery ::
  match getDashboardStats db with
  | Some dashboardData =>
      if truthy dashboardData then
        [SocketEmit socket "dashboardStats"
                    (spread_with dashboardData "timestamp" (VStr timestamp))]
      else []
  | None => []
  end.

(** One [case] of [sendRoomData] that lists a collection. *)
Definition send_listing (socket room collection event message : string)
    : list effect :=
  StoreFind collection ::
  match find db collection with
  | inl docs =>
      [SocketEmit socket event
         (VObj (list_to_map
                  [("success", VBool true); ("data", VArr docs);
                   ("timestamp", VStr timestamp);
                   ("message", VStr message)]))]
  | inr error_message =>
      [SocketEmit socket "error"
         (VObj (list_to_map
                  [("message", VStr ("Failed to load " +:+ room +:+ " data"));
                   ("error", VStr error_message)]))]
  end.

(** [sendRoomData(socket, room)] *)
Definition sendRoomData (socket room : string) : list effect :=
  if String.eqb room "vehicles" then
    send_listing socket room "vehicles" "vehiclesUpdate"
                 "Room-specific vehicle data loaded"
  else if String.eqb room "drivers" then
    send_listing socket room "drivers" "driversUpdate"
                 "Room-specific driver data loaded"
  else if String.eqb room "dashboard" then
    sendDashboardStats socket
  else if String.eqb room "rides" then
    send_listing socket room "rides" "ridesUpdate"
                 "Room-specific rides data loaded"
  else if String.eqb room "admin-management" then
    send_listing socket room "admins" "adminsUpdate"
                 "Room-specific admin data loaded"
  else [].

(** [socket.on("join-room", (room) => ...)] *)
Definition on_join_room (socket room : string)
    (clients : gmap string clientInfo)
    : gmap string clientInfo * list effect :=
  let clients' :=
    match clients !! socket with
    | Some clientInfo =>
        if existsb (String.eqb room) (rooms clientInfo) then clients
        else <[socket := {| connectedAt := connectedAt clientInfo;
                            rooms := rooms clientInfo ++ [room];
                            lastActivity := lastActivity clientInfo |}]>
               clients
    | None => clients
    end in
  (clients', SocketJoin socket room :: sendRoomData socket room).

End Rooms.

(** *** Change streams *)

(** The four watched models, in the order [setupChangeStreams] sets them
    up. *)
Inductive model : Type := Rides | Drivers | Admins | Vehicles.

Definition model_eqb (a b : model) : bool :=
  match a, b with
  | Rides, Rides | Drivers, Drivers | Admins, Admins | Vehicles, Vehicles => true
  | _, _ => false
  end.

(** The variables closed over by [setupModelChangeStream]: the current
    stream (by its identifier) and the flag. *)
Record watcher : Type := {
  changeStream : option nat;
  isConnected : bool
}.

(** An open change stream: its identifier, its collection, and whether
    [setupStream] made it (the others are those of
    [setupDirectDbChangeDetection]). *)
Record subscription : Type := {
  sid : nat;
  coll : model;
  by_setupStream : bool
}.

(** The change-detection state of the process: the four closures, the open
    change streams, the pending [setTimeout] callbacks with their delay in
    milliseconds, and the next fresh stream identifier. *)
Record streams : Type := {
  watchers : model -> watcher;
  open : list subscription;
  timers : list (model * Z);
  next : nat
}.

Definition set_watcher (m : model) (w : watcher) (ws : model -> watcher)
    : model -> watcher :=
  fun m' => if model_eqb m m' then w else ws m'.

(** [stream.close()] *)
Definition close_stream (id : nat) (subs : list subscription)
    : list subscription :=
  filter (fun s => negb (Nat.eqb (sid s) id)) subs.

(** The delay of every reconnect timer. *)
Definition reconnect_delay : Z := 5000.

(** The ["error"] and ["close"] handlers that [setupStream] registers:
<<
      isConnected = false
      setTimeout(() => { if (!isConnected) { setupStream() } }, 5000)
>> *)
Definition on_error_or_close (m : model) (s : streams) : streams :=
  {| watchers :=
       set_watcher m {| changeStream := changeStream (watchers s m);
                        isConnected := false |} (watchers s);
     open := open s;
     timers := timers s ++ [(m, reconnect_delay)];
     next := next s |}.

(** The head of [setupStream()]: the previous stream, if there is one, is
    closed.  [close_emits] tells whether this makes that stream emit its
    ["close"] event before [close()] returns, which runs the handler above
    in the middle of [setupStream].
<<
      if (changeStream) { try { changeStream.close() } catch (err) { ... } }
>> *)
Definition close_previous (m : model) (close_emits : bool) (s : streams)
    : streams :=
  match changeStream (watchers s m) with
  | Some old =>
      let s1 := {| watchers := watchers s;
                   open := close_stream old (open s);
                   timers := timers s;
                   next := next s |} in
      if close_emits then on_error_or_close m s1 else s1
  | None => s
  end.

(** [setupStream()] of the closure of model [m]; [watch_ok] tells whether
    [Model.watch] returns a stream or throws.
<<
      changeStream = Model.watch([], { fullDocument: "updateLookup" })
      changeStream.on("change", ...); changeStream.on("error", ...)
      changeStream.on("close", ...)
      isConnected = true
      // catch: isConnected = false; setTimeout(..., 5000)
>> *)
Definition setupStream (m : model) (watch_ok close_emits : bool) (s : streams)
    : streams :=
  let s1 := close_previous m close_emits s in
  if watch_ok then
    {| watchers :=
         set_watcher m {| changeStream := Some (next s1); isConnected := true |}
                     (watchers s1);
       open := open s1 ++ [{| sid := next s1; coll := m; by_setupStream := true |}];
       timers := timers s1;
       next := S (next s1) |}
  else
    on_error_or_close m s1.

(** The callback of a reconnect timer of model [m]. *)
Definition on_timer (m : model) (watch_ok close_emits : bool) (s : streams)
    : streams :=
  if negb (isConnected (watchers s m)) then setupStream m watch_ok close_emits s
  else s.

(** One [Model.watch(watchPipeline, changeStreamOptions)] of
    [setupDirectDbChangeDetection]; only a ["change"] handler is added. *)
Definition watch_direct (m : model) (s : streams) : streams :=
  {| watchers := watchers s;
     open := open s ++ [{| sid := next s; coll := m; by_setupStream := false |}];
     timers := timers s;
     next := S (next s) |}.

Definition no_streams : streams :=
  {| watchers := fun _ => {| changeStream := None; isConnected := false |};
     open := []; timers := []; next := 0 |}.

(** [setupChangeStreams()] *)
Definition setupChangeStreams (watch_ok : model -> bool) (s : streams) : streams :=
  setupStream Vehicles (watch_ok Vehicles) false
    (setupStream Admins (watch_ok Admins) false
       (setupStream Drivers (watch_ok Drivers) false
          (setupStream Rides (watch_ok Rides) false s))).

(** [setupDirectDbChangeDetection()] *)
Definition setupDirectDbChangeDetection (s : streams) : streams :=
  watch_direct Admins
    (watch_direct Rides (watch_direct Drivers (watch_direct Vehicles s))).

(** [mongoose.connection.once("open", ...)] *)
Definition on_open (watch_ok : model -> bool) : streams :=
  setupDirectDbChangeDetection (setupChangeStreams watch_ok no_streams).

(** What happens to the streams afterwards: a stream made by [setupStream]
    for [m] reports an error; such a stream (open or already replaced)
    reports that it closed; the [i]-th pending timer fires, with the
    behaviour of [Model.watch] and of [close()] at that moment. *)
Inductive stream_event : Type :=
| StreamError (m : model)
| StreamClose (m : model) (id : nat)
| TimerFires (i : nat) (watch_ok close_emits : bool).

(** The streams of [m] that [setupStream] made. *)
Definition made_by_setupStream (m : model) (id : nat) (s : subscription) : bool :=
  Nat.eqb (sid s) id && model_eqb (coll s) m && by_setupStream s.

Definition stream_step (e : stream_event) (s : streams) : streams :=
  match e with
  | StreamError m => on_error_or_close m s
  | StreamClose m id =>
      on_error_or_close m
        {| watchers := watchers s;
           open := filter (fun x => negb (made_by_setupStream m id x)) (open s);
           timers := timers s;
           next := next s |}
  | TimerFires i watch_ok close_emits =>
      match timers s !! i with
      | Some (m, _) =>
          on_timer m watch_ok close_emits
            {| watchers := watchers s; open := open s;
               timers := delete i (timers s); next := next s |}
      | None => s
      end
  end.

Definition stream_run (es : list stream_event) (s : streams) : streams :=
  fold_left (fun acc e => stream_step e acc) es s.

(** The open change streams on the collection of [m]. *)
Definition active_subscriptions (m : model) (s : streams) : nat :=
  length (filter (fun x => model_eqb (coll x) m) (open s)).

(** Those of them that the reconnecting watcher of [m] holds. *)
Definition held_by_watcher (m : model) (x : subscription) : bool :=
  model_eqb (coll x) m && by_setupStream x.

Definition watcher_subscriptions (m : model) (s : streams) : nat :=
  length (filter (held_by_watcher m) (open s)).

(** The streams a watcher holds are at most its current [changeStream], and
    every pending timer has the fixed delay. *)
Definition one_stream_per_watcher (s : streams) : Prop :=
  (forall m,
      (watcher_subscriptions m s <= 1)%nat
      /\ forall x, x ∈ filter (held_by_watcher m) (open s) ->
                   changeStream (watchers s m) = Some (sid x))
  /\ Forall (fun t => t.2 = reconnect_delay) (timers s).

End Server.

(** ** utils/reportsHelper.js: the helpers that build chart rows *)
Module ReportsHelperRows.
Import Js.

(** An entry of the date range that [generateDateRange] builds: its [key],
    its [label] and its date (milliseconds). *)
Record datePoint : Type := {
  key : string;
  label : string;
  date : Z
}.

(** [item._id === datePoint.key], where the key is a string. *)
Definition has_id (k : string) (item : gmap string value) : bool :=
  match item !! "_id" with
  | Some (VStr s) => String.eqb s k
  | _ => false
  end.

(** [existingData?.field || defaultValue] *)
Definition metric (existingData : option (gmap string value)) (field : string)
    (defaultValue : value) : value :=
  or (match existingData with
      | Some fs => default VUndefined (fs !! field)
      | None => VUndefined
      end) defaultValue.

(** One row of [fillMissingDataPoints]:
<<
      const existingData = data.find((item) => item._id === datePoint.key)
      return {
        name: datePoint.label,
        ...existingData,
        earnings: existingData?.totalEarnings || defaultValue,
        rides: existingData?.totalRides || defaultValue,
        cancellations: existingData?.cancelledRides || defaultValue,
      }
>> *)
Definition fill_row (data : list (gmap string value)) (defaultValue : value)
    (p : datePoint) : gmap string value :=
  let existingData := List.find (has_id (key p)) data in
  <["cancellations" := metric existingData "cancelledRides" defaultValue]>
    (<["rides" := metric existingData "totalRides" defaultValue]>
       (<["earnings" := metric existingData "totalEarnings" defaultValue]>
          (default ∅ existingData ∪ {[ "name" := VStr (label p) ]}))).

(** [fillMissingDataPoints(data, dateRange, defaultValue = 0)] *)
Definition fillMissingDataPoints (data : list (gmap string value))
    (dateRange : list datePoint) (defaultValue : value)
    : list (gmap string value) :=
  map (fill_row data defaultValue) dateRange.

(** A ride as [aggregateServiceData] reads it. *)
Record ride : Type := {
  service : string;
  status : string;
  amount : Q
}.

(** The value kept per service in [serviceMap]. *)
Record tally : Type := {
  count : Z;
  earnings : Q;
  completedRides : Z
}.

(** The names that every object inherits from [Object.prototype].  For such
    a name [serviceMap[name]] is truthy from the start, no own entry is ever
    made, and the updates land on the inherited value. *)
Definition inherited (name : string) : bool :=
  existsb (String.eqb name)
    ["constructor"; "hasOwnProperty"; "isPrototypeOf"; "propertyIsEnumerable";
     "toLocaleString"; "toString"; "valueOf"; "__proto__";
     "__defineGetter__"; "__defineSetter__"; "__lookupGetter__";
     "__lookupSetter__"].

(** The own entries of [serviceMap], in the order of their creation. *)
Fixpoint lookup_service (name : string) (m : list (string * tally))
    : option tally :=
  match m with
  | [] => None
  | (n, t) :: rest => if String.eqb n name then Some t else lookup_service name rest
  end.

Fixpoint update_service (name : string) (f : tally -> tally)
    (m : list (string * tally)) : list (string * tally) :=
  match m with
  | [] => []
  | (n, t) :: rest =>
      if String.eqb n name then (n, f t) :: rest
      else (n, t) :: update_service name f rest
  end.

(** What one ride adds to its service. *)
Definition count_ride (r : ride) (t : tally) : tally :=
  if String.eqb (status r) "completed" then
    {| count := count t + 1; earnings := (earnings t + amount r)%Q;
       completedRides := completedRides t + 1 |}
  else
    {| count := count t + 1; earnings := earnings t;
       completedRides := completedRides t |}.

(** The body of [rides.forEach]:
<<
      if (!serviceMap[ride.service]) {
        serviceMap[ride.service] = { count: 0, earnings: 0, completedRides: 0 }
      }
      serviceMap[ride.service].count++
      if (ride.status === "completed") {
        serviceMap[ride.service].earnings += ride.amount
        serviceMap[ride.service].completedRides++
      }
>> *)
Definition add_ride (m : list (string * tally)) (r : ride)
    : list (string * tally) :=
  if inherited (service r) then m
  else
    let m1 :=
      match lookup_service (service r) m with
      | Some _ => m
      | None => m ++ [(service r, {| count := 0; earnings := 0; completedRides := 0 |})]
      end in
    update_service (service r) (count_ride r) m1.

(** A property name that is an array index: the decimal form, without
    leading zeros, of an integer below 2^32 - 1. *)
Definition array_index (name : string) : option N :=
  let cs := String.list_ascii_of_string name in
  match cs with
  | [] => None
  | c :: rest =>
      if forallb Simulation.is_digit cs
         && (negb (Nat.eqb (Ascii.nat_of_ascii c) 48)
             || match rest with [] => true | _ => false end)
      then
        let n := Z.to_N (Simulation.parse_digits cs) in
        if (n <? 4294967295)%N then Some n else None
      else None
  end.

Fixpoint insert_index {V} (x : N * (string * V)) (l : list (N * (string * V)))
    : list (N * (string * V)) :=
  match l with
  | [] => [x]
  | y :: rest => if (fst x <? fst y)%N then x :: y :: rest
                 else y :: insert_index x rest
  end.

(** [Object.entries(o)]: the array-index names in ascending order, then the
    other names in the order of their creation. *)
Definition Object_entries {V} (o : list (string * V)) : list (string * V) :=
  map snd
      (foldr insert_index []
             (omap (fun e => match array_index (fst e) with
                             | Some n => Some (n, e)
                             | None => None
                             end) o))
  ++ filter (fun e => negb (bool_decide (is_Some (array_index (fst e))))) o.

(** A row of the result: [{ service, ...data, avgEarningPerRide }]. *)
Record serviceRow : Type := {
  row_service : string;
  row_tally : tally;
  avgEarningPerRide : Q
}.

Definition to_row (e : string * tally) : serviceRow :=
  {| row_service := fst e;
     row_tally := snd e;
     avgEarningPerRide :=
       if 0 <? completedRides (snd e)
       then (earnings (snd e) / inject_Z (completedRides (snd e)))%Q
       else 0%Q |}.

(** [aggregateServiceData(rides)] *)
Definition aggregateServiceData (rides : list ride) : list serviceRow :=
  map to_row (Object_entries (fold_left add_ride rides [])).

End ReportsHelperRows.

(** ** server.js: model updates, change handlers and polling *)
Module ServerFeeds.
Import Js.

Inductive effect : Type :=
| StoreFind (collection : string)
| StoreFindOne (collection : string)
| DashboardQuery
| IoEmit (event : string) (payload : value)
| Wait (ms : Z).

(** The full listing of a model goes out under the event [<model>Update]. *)
Definition is_listing_of (modelName : string) (e : effect) : bool :=
  match e with
  | IoEmit event _ => String.eqb event (modelName +:+ "Update")
  | _ => false
  end.

(** The [switch] of [sendModelUpdates] has a case for these names. *)
Definition known_model (modelName : string) : bool :=
  existsb (String.eqb modelName) ["vehicles"; "drivers"; "rides"; "admins"].

(** [realTimeEvents.sendModelUpdates(modelName)]: unknown names return
    before the emit, and a rejected query is caught and logged.
<<
      switch (modelName) {
        case "vehicles": data = await Vehicle.find()...; break
        ...
        default: return
      }
      io.emit(`${modelName}Update`, { success: true, data, timestamp: ... })
>> *)
Definition sendModelUpdates (db : Server.backend) (timestamp : string)
    (modelName : string) : list effect :=
  if known_model modelName then
    StoreFind modelName ::
    match Server.find db modelName with
    | inl docs =>
        [IoEmit (modelName +:+ "Update")
                (VObj (list_to_map
                         [("success", VBool true); ("data", VArr docs);
                          ("timestamp", VStr timestamp)]))]
    | inr _ => []
    end
  else [].

(** [sendDashboardStats(io)] *)
Definition sendDashboardStats (db : Server.backend) (timestamp : string)
    : list effect :=
  DashboardQuery ::
  match Server.getDashboardStats db with
  | Some dashboardData =>
      if truthy dashboardData then
        [IoEmit "dashboardStats"
                (spread_with dashboardData "timestamp" (VStr timestamp))]
      else []
  | None => []
  end.

(** A change notification of the store. *)
Record change : Type := {
  operationType : string;
  fullDocument : value;
  documentKey : value
}.

(** The name [setupModelChangeStream] is given for a model, and its
    [toLowerCase()]. *)
Definition model_name (m : Server.model) : string :=
  match m with
  | Server.Rides => "Rides" | Server.Drivers => "Drivers"
  | Server.Admins => "Admins" | Server.Vehicles => "Vehicles"
  end.

Definition lower_name (m : Server.model) : string :=
  match m with
  | Server.Rides => "rides" | Server.Drivers => "drivers"
  | Server.Admins => "admins" | Server.Vehicles => "vehicles"
  end.

(** The ["change"] handler that [setupStream] registers; [timestamp] is the
    clock at the notification and [timestamp'] the clock after the pause.
<<
      const document = change.fullDocument || change.documentKey
      io.emit(`${modelName}:${change.operationType}`, { data: document, timestamp })
      await new Promise((resolve) => setTimeout(resolve, 100))
      await realTimeEvents.sendModelUpdates(modelName.toLowerCase())
      if (["vehicles", "drivers", "rides"].includes(modelName.toLowerCase())) {
        await sendDashboardStats(io)
      }
>> *)
Definition on_change (db : Server.backend) (timestamp timestamp' : string)
    (m : Server.model) (c : change) : list effect :=
  IoEmit (model_name m +:+ ":" +:+ operationType c)
         (VObj (list_to_map
                  [("data", or (fullDocument c) (documentKey c));
                   ("timestamp", VStr timestamp)]))
  :: Wait 100
  :: sendModelUpdates db timestamp' (lower_name m)
  ++ (if existsb (String.eqb (lower_name m)) ["vehicles"; "drivers"; "rides"]
      then sendDashboardStats db timestamp' else []).

(** The ["change"] handlers of [setupDirectDbChangeDetection].  Reading
    [change.documentKey._id] throws when there is no document key, before
    anything is emitted.
<<
      io.emit("directDbChange", { collection: "vehicles",
        operation: change.operationType, timestamp, documentId: change.documentKey._id })
      await new Promise((resolve) => setTimeout(resolve, 100))
      await realTimeEvents.sendModelUpdates("vehicles")
>> *)
Definition on_direct_change (db : Server.backend) (timestamp timestamp' : string)
    (m : Server.model) (c : change) : list effect :=
  if non_null (documentKey c) then
    IoEmit "directDbChange"
           (VObj (list_to_map
                    [("collection", VStr (lower_name m));
                     ("operation", VStr (operationType c));
                     ("timestamp", VStr timestamp);
                     ("documentId", get (documentKey c) "_id")]))
    :: Wait 100
    :: sendModelUpdates db timestamp' (lower_name m)
  else [].

(** What [Model.findOne().sort(...)] gives a poll: the query is rejected,
    there is no document, or there is a latest document, whose time stamp
    field may be missing. *)
Inductive found : Type :=
| FindThrows
| NoDocument
| Document (stamp : option Z).

(** One run of an interval callback of [setupPollingFallback] for the
    collection [modelName], with [last] the entry of [lastUpdates]:
<<
      const latestVehicle = await Vehicle.findOne().sort({ updatedAt: -1 })
      if (latestVehicle && latestVehicle.updatedAt > lastUpdates.vehicles) {
        lastUpdates.vehicles = latestVehicle.updatedAt
        await realTimeEvents.sendModelUpdates("vehicles")
      }
>> *)
Definition poll (db : Server.backend) (timestamp : string) (modelName : string)
    (f : found) (last : Z) : Z * list effect :=
  match f with
  | Document (Some stamp) =>
      if last <? stamp then
        (stamp, StoreFindOne modelName :: sendModelUpdates db timestamp modelName)
      else (last, [StoreFindOne modelName])
  | _ => (last, [StoreFindOne modelName])
  end.

(** Successive polls of one collection. *)
Fixpoint polls (db : Server.backend) (timestamp : string) (modelName : string)
    (fs : list found) (last : Z) : Z * list effect :=
  match fs with
  | [] => (last, [])
  | f :: rest =>
      let '(last1, out1) := poll db timestamp modelName f last in
      let '(last2, out2) := polls db timestamp modelName rest last1 in
      (last2, out1 ++ out2)
  end.

(** The time stamps that a list of poll results shows. *)
Definition stamps (fs : list found) : list Z :=
  omap (fun f => match f with Document (Some t) => Some t | _ => None end) fs.

End ServerFeeds.

(** ** server.js: the connection registry *)
Module ServerRegistry.
Import Server.

(** [io.on("connection", ...)]: the entry made for a new socket. *)
Definition on_connection (socket : string) (now : Z)
    (clients : gmap string clientInfo) : gmap string clientInfo :=
  <[socket := {| connectedAt := now; rooms := []; lastActivity := now |}]> clients.

(** The update of [lastActivity] in the [client-heartbeat],
    [getLatestVehicles] and [getLatestData] handlers:
<<
      if (connectedClients.has(socket.id)) {
        const clientInfo = connectedClients.get(socket.id)
        clientInfo.lastActivity = new Date()
        connectedClients.set(socket.id, clientInfo)
      }
>> *)
Definition touch (socket : string) (now : Z) (clients : gmap string clientInfo)
    : gmap string clientInfo :=
  match clients !! socket with
  | Some c =>
      <[socket := {| connectedAt := connectedAt c; rooms := rooms c;
                     lastActivity := now |}]> clients
  | None => clients
  end.

(** [socket.on("disconnect", ...)] *)
Definition on_disconnect (socket : string) (clients : gmap string clientInfo)
    : gmap string clientInfo :=
  delete socket clients.

(** The idle threshold of the periodic cleanup, in milliseconds. *)
Definition stale_after : Z := 5 * 60 * 1000.

Definition is_stale (now : Z) (c : clientInfo) : bool :=
  stale_after <? now - lastActivity c.

(** The periodic cleanup of stale connections: the entries it keeps.
<<
      connectedClients.forEach((clientInfo, socketId) => {
        if (now - clientInfo.lastActivity > 5 * 60 * 1000) {
          const socket = io.sockets.sockets.get(socketId)
          if (socket) { socket.disconnect(true) }
          connectedClients.delete(socketId)
        }
      })
>> *)
Definition sweep (now : Z) (clients : gmap string clientInfo)
    : gmap string clientInfo :=
  filter (fun kc => negb (is_stale now kc.2)) clients.

(** The sockets the cleanup disconnects; [live] are those the transport
    still knows. *)
Definition sweep_disconnects (now : Z) (live : gset string)
    (clients : gmap string clientInfo) : gset string :=
  dom (filter (fun kc => is_stale now kc.2) clients) ∩ live.

(** What happens to the registry. *)
Inductive event : Type :=
| Connect (socket : string) (now : Z)
| Touch (socket : string) (now : Z)
| JoinRoom (socket room : string)
| Disconnect (socket : string)
| Sweep (now : Z).

Definition step (db : backend) (timestamp : string) (e : event)
    (clients : gmap string clientInfo) : gmap string clientInfo :=
  match e with
  | Connect socket now => on_connection socket now clients
  | Touch socket now => touch socket now clients
  | JoinRoom socket room => (on_join_room db timestamp socket room clients).1
  | Disconnect socket => on_disconnect socket clients
  | Sweep now => sweep now clients
  end.

Definition run (db : backend) (timestamp : string) (es : list event)
    (clients : gmap string clientInfo) : gmap string clientInfo :=
  fold_left (fun acc e => step db timestamp e acc) es clients.

End ServerRegistry.

(** ** socket.js: dashboard statistics and client tracking *)
Module SocketDashboard.
Import Js.

Section Stats.
(** ECMAScript's ToNumber, which [>=] applies to its operands. *)
Variable ToNumber : value -> option Q.

(** [x >= 0] *)
Definition ge_zero (v : value) : bool :=
  match ToNumber v with
  | Some q => if Qlt_le_dec q 0 then false else true
  | None => false
  end.

(** [stats.field !== undefined && stats.field >= 0] *)
Definition has_count (stats : value) (field : string) : bool :=
  defined (get stats field) && ge_zero (get stats field).

(** [validateStatsData(stats)]
<<
      if (!stats || typeof stats !== "object") { return false }
      const hasValidData =
        (stats.todayRides !== undefined && stats.todayRides >= 0) ||
        (stats.totalDrivers !== undefined && stats.totalDrivers >= 0) ||
        (stats.todayIncome !== undefined && stats.todayIncome >= 0)
      return hasValidData
>> *)
Definition validateStatsData (stats : value) : bool :=
  if negb (truthy stats) || negb (String.eqb (typeof stats) "object") then false
  else has_count stats "todayRides" || has_count stats "totalDrivers"
       || has_count stats "todayIncome".

(** How the call of [dashboardController.getDashboardStats] ends: the
    controller is missing, it hands a value to [res.json] or to
    [res.status(code).json], it returns without answering, or it throws. *)
Inductive controller_result : Type :=
| Missing
| Json (data : value)
| StatusJson (data : value)
| NoAnswer
| Throws.

(** [getDashboardStats()]: the stamped statistics, or [null]. *)
Definition getDashboardStats (timestamp : string) (c : controller_result)
    : value :=
  match c with
  | Json statsData | StatusJson statsData =>
      if validateStatsData statsData
      then spread_with statsData "timestamp" (VStr timestamp)
      else VNull
  | Missing | NoAnswer | Throws => VNull
  end.

(** [sendDashboardUpdates(io)]
<<
      const stats = await getDashboardStats()
      if (stats && validateStatsData(stats)) {
        io.to("dashboard").emit("dashboardStats", stats)
      }
>> *)
Definition sendDashboardUpdates (timestamp : string) (c : controller_result)
    : list Server.emission :=
  let stats := getDashboardStats timestamp c in
  if truthy stats && validateStatsData stats
  then [Server.RoomEmit "dashboard" "dashboardStats" stats]
  else [].

(** [sendInitialDashboardData(socket)]: what is emitted to the socket. *)
Definition sendInitialDashboardData (timestamp : string) (c : controller_result)
    : list (string * value) :=
  let stats := getDashboardStats timestamp c in
  if truthy stats then [("dashboardStats", stats)] else [].

End Stats.

(** The [clients] object of [setupSocket]: a set of sockets per feature. *)
Record clients : Type := {
  dashboard : gset string;
  admin : gset string;
  rides : gset string;
  reports : gset string;
  drivers : gset string;
  vehicles : gset string;
  all : gset string
}.

Definition no_clients : clients :=
  {| dashboard := ∅; admin := ∅; rides := ∅; reports := ∅; drivers := ∅;
     vehicles := ∅; all := ∅ |}.

(** The sets, as [Object.values(clients)] lists them. *)
Definition client_sets (c : clients) : list (gset string) :=
  [dashboard c; admin c; rides c; reports c; drivers c; vehicles c; all c].

(** [io.on("connection", ...)]: the socket is added to [all] and, for
    backward compatibility, to [dashboard]. *)
Definition on_connection (socket : string) (c : clients) : clients :=
  {| dashboard := {[socket]} ∪ dashboard c; admin := admin c; rides := rides c;
     reports := reports c; drivers := drivers c; vehicles := vehicles c;
     all := {[socket]} ∪ all c |}.

(** The [switch (room)] of the [join-room] handler. *)
Definition on_join_room (socket room : string) (c : clients) : clients :=
  if String.eqb room "dashboard" then
    {| dashboard := {[socket]} ∪ dashboard c; admin := admin c; rides := rides c;
       reports := reports c; drivers := drivers c; vehicles := vehicles c;
       all := all c |}
  else if String.eqb room "admin-management" then
    {| dashboard := dashboard c; admin := {[socket]} ∪ admin c; rides := rides c;
       reports := reports c; drivers := drivers c; vehicles := vehicles c;
       all := all c |}
  else if String.eqb room "rides" then
    {| dashboard := dashboard c; admin := admin c; rides := {[socket]} ∪ rides c;
       reports := reports c; drivers := drivers c; vehicles := vehicles c;
       all := all c |}
  else if String.eqb room "reports" then
    {| dashboard := dashboard c; admin := admin c; rides := rides c;
       reports := {[socket]} ∪ reports c; drivers := drivers c;
       vehicles := vehicles c; all := all c |}
  else if String.eqb room "drivers" then
    {| dashboard := dashboard c; admin := admin c; rides := rides c;
       reports := reports c; drivers := {[socket]} ∪ drivers c;
       vehicles := vehicles c; all := all c |}
  else if String.eqb room "vehicles" then
    {| dashboard := dashboard c; admin := admin c; rides := rides c;
       reports := reports c; drivers := drivers c;
       vehicles := {[socket]} ∪ vehicles c; all := all c |}
  else c.

(** [Object.values(clients).forEach((clientSet) => clientSet.delete(socket))] *)
Definition on_disconnect (socket : string) (c : clients) : clients :=
  {| dashboard := dashboard c ∖ {[socket]}; admin := admin c ∖ {[socket]};
     rides := rides c ∖ {[socket]}; reports := reports c ∖ {[socket]};
     drivers := drivers c ∖ {[socket]}; vehicles := vehicles c ∖ {[socket]};
     all := all c ∖ {[socket]} |}.

(** What a socket does between its connection and its disconnection.  The
    [join-room] handler is registered in the connection handler, so a socket
    joins rooms only while it is connected. *)
Inductive event : Type :=
| Connect (socket : string)
| JoinRoom (socket room : string)
| Disconnect (socket : string).

Definition step (e : event) (c : clients) : clients :=
  match e with
  | Connect socket => on_connection socket c
  | JoinRoom socket room =>
      if bool_decide (socket ∈ all c) then on_join_room socket room c else c
  | Disconnect socket => on_disconnect socket c
  end.

Definition run (es : list event) (c : clients) : clients :=
  fold_left (fun acc e => step e acc) es c.

End SocketDashboard.

(** ** The validation table of the specification

    The rule of the specification for the two feeds it spells out, written
    from its words and compared below with [isValidData]:
    "summary: has numeric totalEarnings and totalRides fields (zero is
    valid)"; "earnings: has array chartData (possibly empty) and non-null
    summary". *)
Module SpecTable.
Import Js.

Definition spec_valid (feedKind : string) (payload : value) : bool :=
  if String.eqb feedKind "summary" then
    is_number (get payload "totalEarnings") && is_number (get payload "totalRides")
  else if String.eqb feedKind "earnings" then
    isArray (get payload "chartData") && non_null (get payload "summary")
  else true.

End SpecTable.

(** ** Concrete inputs used in the examples below *)
Module Samples.
Import Js.

(** The payloads on which the code and the table of the specification
    part. *)
Definition summary_of_strings : value :=
  VObj (list_to_map [("totalEarnings", VStr "n/a"); ("totalRides", VNull)]).

Definition earnings_with_zero_summary : value :=
  VObj (list_to_map [("chartData", VArr []); ("summary", VNum 0)]).

Definition minimal_earnings : value :=
  VObj (list_to_map [("chartData", VArr []); ("summary", VObj ∅)]).

Definition zero_summary : value :=
  VObj (list_to_map [("totalEarnings", VNum 0); ("totalRides", VNum 0)]).


(** A simulator without the optional helpers, whose movement keeps the
    position and whose battery drain takes one unit. *)
Definition still_simulator : Simulation.locationSimulator :=
  {| Simulation.simulateMovement := fun _ loc _ spd =>
       Some (match loc with Some l => Some (l, spd) | None => None end);
     Simulation.simulateBatteryDrain := fun _ b _ _ => Some (b - 1)%Q;
     Simulation.getRandomDestination := None;
     Simulation.getRandomPassenger := None;
     Simulation.generateETA := None |}.

(** Draws that all come out as [x]. *)
Definition all_draws (x : Q) : Simulation.Draws :=
  {| Simulation.r_move := x; Simulation.r_battery := x; Simulation.r_eta := x;
     Simulation.r_assign := x; Simulation.r_destination := x;
     Simulation.r_passenger := x; Simulation.r_distance := x;
     Simulation.r_emergency := x; Simulation.r_resolve := x |}.

(** A driver at the end of a trip: active, with one minute left. *)
Definition arriving_driver (id : string) : Simulation.Driver :=
  {| Simulation._id := id; Simulation.name := "Asha";
     Simulation.status := "active";
     Simulation.location := Some (24 # 1, 67 # 1)%Q;
     Simulation.speed := 30; Simulation.batteryLevel := 90;
     Simulation.completedTrips := 4; Simulation.isOnline := true;
     Simulation.destination := Some "Airport";
     Simulation.passenger := Some "Ravi";
     Simulation.tripId := Some "TRP000123";
     Simulation.eta := Some "1 mins"; Simulation.lastUpdate := 0 |}.

(** The same driver with an empty destination string. *)
Definition driver_without_destination_text : Simulation.Driver :=
  {| Simulation._id := "d0"; Simulation.name := "Asha";
     Simulation.status := "active";
     Simulation.location := Some (24 # 1, 67 # 1)%Q;
     Simulation.speed := 30; Simulation.batteryLevel := 90;
     Simulation.completedTrips := 4; Simulation.isOnline := true;
     Simulation.destination := Some "";
     Simulation.passenger := Some "Ravi";
     Simulation.tripId := Some "TRP000123";
     Simulation.eta := Some "1 mins"; Simulation.lastUpdate := 0 |}.

(** An environment whose draws are all [x] and in which the store rejects
    exactly the write of iteration [i]. *)
Definition failing_at (i : nat) (x : Q) : nat -> Simulation.turn :=
  fun j => {| Simulation.draws := all_draws x;
              Simulation.write_fails := Nat.eqb j i |}.


(** The reports service after a summary cycle whose controller call
    returned without answering. *)
Definition unanswered_service : ReportsSocketService.system :=
  (ReportsSocketService.run (fun _ => None)
     [ReportsSocketService.Connection "c1" 0;
      ReportsSocketService.PeriodicSummary;
      ReportsSocketService.ControllerReturns 0 ReportsSocketService.NoAnswer]
     ReportsSocketService.boot).1.

(** A client with a time range filter, and one without filters. *)
Definition weekly_client : ReportsSocketService.client :=
  {| ReportsSocketService.filters := VObj {[ "timeRange" := VStr "week" ]};
     ReportsSocketService.lastActivity := 0 |}.

Definition plain_client : ReportsSocketService.client :=
  {| ReportsSocketService.filters := VObj ∅;
     ReportsSocketService.lastActivity := 0 |}.

(** A driver on a trip with five minutes left, and a driver that is not
    online. *)
Definition en_route_driver : Simulation.Driver :=
  {| Simulation._id := "d5"; Simulation.name := "Bhavesh";
     Simulation.status := "active";
     Simulation.location := Some (24 # 1, 67 # 1)%Q;
     Simulation.speed := 30; Simulation.batteryLevel := 90;
     Simulation.completedTrips := 2; Simulation.isOnline := true;
     Simulation.destination := Some "Station";
     Simulation.passenger := Some "Priya";
     Simulation.tripId := Some "TRP000777";
     Simulation.eta := Some "5 mins"; Simulation.lastUpdate := 0 |}.

Definition parked_driver : Simulation.Driver :=
  {| Simulation._id := "d9"; Simulation.name := "Mahi";
     Simulation.status := "offline";
     Simulation.location := Some (24 # 1, 67 # 1)%Q;
     Simulation.speed := 0; Simulation.batteryLevel := 50;
     Simulation.completedTrips := 7; Simulation.isOnline := false;
     Simulation.destination := None; Simulation.passenger := None;
     Simulation.tripId := None; Simulation.eta := None;
     Simulation.lastUpdate := 0 |}.

End Samples.

(** * Properties *)

(** ** Percentage change and driver rankings *)
Section ReportsHelperFacts.
Import ReportsHelper.

(** C9. [calculatePercentageChange] is defined on every pair of numbers and
    no division it performs has a zero divisor; when [previous] is zero the
    result is 0 for a zero [current] and 100 otherwise; and the division
    branch is reached only when [previous] is not zero. *)
Theorem calculatePercentageChange_never_divides_by_zero
    (current previous : number) :
  (exists r ops, calculatePercentageChange_run current previous = (r, ops)
                 /\ forallb (fun o => negb (divides_by_zero o)) ops = true)
  /\ (is_zero previous = true ->
      calculatePercentageChange current previous
      = if is_zero current then Fin 0 else Fin 100)
  /\ (division_branch_reached current previous = true ->
      is_zero previous = false).
Proof.
  unfold calculatePercentageChange, division_branch_reached,
    calculatePercentageChange_run.
  destruct (is_zero previous) eqn:Hp.
  - split; [eexists _, _; split; reflexivity |].
    split; [intros _; reflexivity | discriminate].
  - split.
    + eexists _, _. split; [reflexivity |]. cbn [forallb divides_by_zero].
      rewrite Hp. reflexivity.
    + split; [discriminate | reflexivity].
Qed.

(** From a zero [previous], a change to 5 or to [NaN] is reported as 100. *)
Lemma calculatePercentageChange_from_zero :
  calculatePercentageChange (Fin 5) (Fin 0) = Fin 100
  /\ calculatePercentageChange NaN (Fin 0) = Fin 100
  /\ is_zero (Fin 4) = false.
Proof.
  split; [| split].
  - exact (proj1 (proj2 (calculatePercentageChange_never_divides_by_zero
                           (Fin 5) (Fin 0))) eq_refl).
  - exact (proj1 (proj2 (calculatePercentageChange_never_divides_by_zero
                           NaN (Fin 0))) eq_refl).
  - exact (proj2 (proj2 (calculatePercentageChange_never_divides_by_zero
                           (Fin 5) (Fin 4))) eq_refl).
Defined.

Example calculatePercentageChange_values :
  calculatePercentageChange (Fin 0) (Fin 0) = Fin 0
  /\ calculatePercentageChange (Fin 3) (Fin 2) = Fin (500 # 10)
  /\ calculatePercentageChange (Fin 4) (Fin 3) = Fin (333 # 10)
  /\ calculatePercentageChange (Fin 1) NaN = NaN
  /\ calculatePercentageChange PInf (Fin 2) = PInf.
Proof. repeat split; reflexivity. Qed.

(** *** The stable sort *)
Section SortFacts.
Context {A : Type}.
Variable compare : A -> A -> Q.

Hypothesis compare_flip : forall a b, (0 < compare a b)%Q -> in_order compare b a.
Hypothesis in_order_trans :
  forall a b c, in_order compare a b -> in_order compare b c -> in_order compare a c.

Lemma sort_insert_perm (x : A) (l : list A) :
  sort_insert compare x l ≡ₚ x :: l.
Proof.
  induction l as [|y l IH]; cbn; [reflexivity |].
  destruct (Qlt_le_dec 0 (compare x y)); [| reflexivity].
  rewrite IH. apply Permutation_swap.
Qed.

Lemma Array_sort_perm (l : list A) : Array_sort compare l ≡ₚ l.
Proof.
  induction l as [|x l IH]; cbn; [reflexivity |].
  rewrite sort_insert_perm. by rewrite IH.
Qed.

Lemma sort_insert_sorted (x : A) (l : list A) :
  StronglySorted (in_order compare) l -> StronglySorted (in_order compare) (sort_insert compare x l).
Proof.
  induction 1 as [|y l Hs IH Hy]; cbn.
  - repeat constructor.
  - destruct (Qlt_le_dec 0 (compare x y)) as [Hlt | Hle].
    + constructor; [exact IH |].
      rewrite sort_insert_perm. constructor; [by apply compare_flip | exact Hy].
    + constructor; [by constructor |].
      constructor; [exact Hle |].
      eapply Forall_impl; [exact Hy |].
      intros z Hz. by eapply in_order_trans.
Qed.

Lemma Array_sort_sorted (l : list A) :
  StronglySorted (in_order compare) (Array_sort compare l).
Proof.
  induction l as [|x l IH]; cbn; [constructor |].
  by apply sort_insert_sorted.
Qed.
End SortFacts.

Lemma by_score_desc_flip {info} (a b : scored info) :
  (0 < by_score_desc a b)%Q -> in_order by_score_desc b a.
Proof. unfold in_order, by_score_desc. lra. Qed.

Lemma by_score_desc_order {info} (a b : scored info) :
  in_order by_score_desc a b <-> (score b <= score a)%Q.
Proof. unfold in_order, by_score_desc. lra. Qed.

Lemma by_score_desc_trans {info} (a b c : scored info) :
  in_order by_score_desc a b -> in_order by_score_desc b c ->
  in_order by_score_desc a c.
Proof.
  rewrite !by_score_desc_order. intros H1 H2. by eapply Qle_trans.
Qed.

Lemma imap_rank_rows {A B} (f : nat -> A -> B) (g : B -> A) (l : list A) :
  (forall i x, g (f i x) = x) -> g <$> imap f l = l.
Proof.
  revert f. induction l as [|x l IH]; intros f Hg; [reflexivity |].
  rewrite imap_cons, fmap_cons, Hg. f_equal. apply IH. intros i y. apply Hg.
Qed.


Example calculateDriverRankings_three :
  (fun r => (other (base (row r)), rank r))
  <$> calculateDriverRankings
        [ {| other := "a"; completionRate := 50; totalEarnings := 1000; totalRides := 10 |};
          {| other := "b"; completionRate := 90; totalEarnings := 5000; totalRides := 40 |};
          {| other := "c"; completionRate := 50; totalEarnings := 1000; totalRides := 10 |} ]
  = [("b", 1); ("a", 2); ("c", 3)].
Proof. reflexivity. Qed.

End ReportsHelperFacts.

(** ** Validation and the snapshot cache *)
Section ReportsSocketServiceFacts.
Import Js ReportsSocketService SpecTable Samples.

(** The first test of [isValidData]: a truthy value of type "object". *)
Lemma object_guard (data : value) :
  negb (truthy data) || negb (String.eqb (typeof data) "object")
  = negb (match data with VArr _ | VObj _ => true | _ => false end).
Proof. destruct data as [| |b|q| |s|es|fs]; cbn; try reflexivity.
  - by destruct b.
  - by destruct (Qeq_bool q 0).
  - by destruct (String.eqb s "").
Qed.

Lemma accepts_summary (data : value) :
  accepts data "summary"
  = match data with VArr _ | VObj _ => true | _ => false end
    && defined (get data "totalEarnings") && defined (get data "totalRides").
Proof.
  unfold accepts, isValidData. rewrite object_guard.
  destruct data; cbn; try reflexivity.
Qed.

Lemma truthy_array_and (c x : value) :
  truthy (and (and c (VBool (isArray c))) x) = isArray c && truthy x.
Proof.
  unfold and. destruct c as [| |b|q| |s|es|fs]; cbn; try reflexivity.
  - by destruct b.
  - destruct (Qeq_bool q 0) eqn:Hq; cbn; rewrite ?Hq; cbn; rewrite ?Hq; reflexivity.
  - destruct (String.eqb s "") eqn:Hs; cbn; rewrite ?Hs; cbn; rewrite ?Hs; reflexivity.
Qed.

Lemma accepts_earnings (data : value) :
  accepts data "earnings"
  = match data with VArr _ | VObj _ => true | _ => false end
    && isArray (get data "chartData") && truthy (get data "summary").
Proof.
  unfold accepts, isValidData. rewrite object_guard.
  destruct data; cbn -[get and]; try reflexivity; apply truthy_array_and.
Qed.

(** C2, as stated, fails: a summary whose two fields are present but not
    numbers is accepted, and an earnings payload whose [summary] is the
    non-null value 0 is rejected. *)
Lemma isValidData_differs_from_table :
  ~ (forall feedKind payload,
        feedKind = "summary" \/ feedKind = "earnings" ->
        accepts payload feedKind = spec_valid feedKind payload).
Proof.
  intros H. specialize (H "summary" summary_of_strings (or_introl eq_refl)).
  vm_compute in H. discriminate.
Qed.

Example isValidData_rejects_zero_summary_field :
  accepts earnings_with_zero_summary "earnings" = false
  /\ spec_valid "earnings" earnings_with_zero_summary = true.
Proof. split; reflexivity. Qed.

(** C2, amended.  A summary payload is accepted exactly when it is an
    object (or array) whose [totalEarnings] and [totalRides] are both
    present, of whatever type, zero included; an earnings payload is
    accepted exactly when its [chartData] is an array, possibly empty, and
    its [summary] is truthy, so [{chartData: [], summary: {}}] is
    accepted; an object without one of the required fields is rejected. *)
Theorem isValidData_summary_and_earnings (payload : value) :
  accepts payload "summary"
  = match payload with VArr _ | VObj _ => true | _ => false end
    && defined (get payload "totalEarnings") && defined (get payload "totalRides")
  /\ accepts payload "earnings"
     = match payload with VArr _ | VObj _ => true | _ => false end
       && isArray (get payload "chartData") && truthy (get payload "summary")
  /\ accepts zero_summary "summary" = true
  /\ accepts minimal_earnings "earnings" = true
  /\ (forall fs : gmap string value,
        fs !! "totalEarnings" = None \/ fs !! "totalRides" = None ->
        accepts (VObj fs) "summary" = false)
  /\ (forall fs : gmap string value,
        fs !! "chartData" = None \/ fs !! "summary" = None ->
        accepts (VObj fs) "earnings" = false).
Proof.
  split; [apply accepts_summary |].
  split; [apply accepts_earnings |].
  split; [reflexivity |]. split; [reflexivity |].
  split; intros fs [H | H].
  - rewrite accepts_summary. cbn. by rewrite H.
  - rewrite accepts_summary. cbn. rewrite H. cbn. apply andb_false_r.
  - rewrite accepts_earnings. cbn. by rewrite H.
  - rewrite accepts_earnings. cbn. rewrite H. cbn. apply andb_false_r.
Qed.

(** A summary without [totalEarnings] and an earnings payload without
    [summary] are rejected. *)
Lemma isValidData_missing_field_rejected :
  accepts (VObj {[ "totalRides" := VNum 3 ]}) "summary" = false
  /\ accepts (VObj {[ "chartData" := VArr [] ]}) "earnings" = false.
Proof.
  split.
  - apply (proj1 (proj2 (proj2 (proj2 (proj2
             (isValidData_summary_and_earnings VNull)))))).
    left. reflexivity.
  - apply (proj2 (proj2 (proj2 (proj2 (proj2
             (isValidData_summary_and_earnings VNull)))))).
    right. reflexivity.
Defined.

(** *** Commit only after validation *)

Lemma request_json_invalid (r : report) (socket : string) (data : value)
    (st : service) :
  accepts data (type_of r) = false ->
  (request_json r socket data st).1 = st.
Proof. intros H. unfold request_json. by rewrite H. Qed.

Lemma broadcast_json_invalid ToNumber (k : cycle_kind) (q data : value)
    (st : service) :
  accepts data (type_of (cycle_report k)) = false ->
  lastDataCache (broadcast_json ToNumber k q data st).1 = lastDataCache st.
Proof.
  intros H. unfold broadcast_json. destruct k; cbn in H; by rewrite H.
Qed.

Lemma broadcast_finish_invalid ToNumber (k : cycle_kind) (q : value)
    (o : outcome) (st : service) :
  match o with
  | Json data => accepts data (type_of (cycle_report k)) = false
  | _ => True
  end ->
  lastDataCache (broadcast_finish ToNumber k q o st).1 = lastDataCache st.
Proof.
  destruct o; cbn; intros H; try reflexivity.
  by apply broadcast_json_invalid.
Qed.

(** C3. Once a valid payload [V] has been cached for a feed, an invalid
    payload [I] for the same feed, whether it answers a client request or a
    broadcast cycle, leaves the cache as it is, and reading the feed, on
    request or for a newly connected client, still yields [V]. *)
Theorem invalid_payload_keeps_cached_value ToNumber (r : report)
    (socket socket' : string) (V I : value) (st : service) :
  accepts V (type_of r) = true ->
  accepts I (type_of r) = false ->
  let st1 := (request_json r socket V st).1 in
  cache_get st1 (cache_key r) = V
  /\ (request_json r socket' I st1).1 = st1
  /\ cache_get (request_json r socket' I st1).1 (cache_key r) = V
  /\ (forall k q,
        cycle_report k = r ->
        lastDataCache (broadcast_finish ToNumber k q (Json I) st1).1
        = lastDataCache st1)
  /\ (truthy V = true ->
      (request_json r socket' I st1).2 = [SocketEmit socket' (data_event r) V]).
Proof.
  intros HV HI st1.
  assert (Hget : cache_get st1 (cache_key r) = V).
  { subst st1. unfold request_json, cache_get. rewrite HV. cbn.
    by rewrite lookup_insert_eq. }
  assert (Hsame : (request_json r socket' I st1).1 = st1)
    by by apply request_json_invalid.
  split; [exact Hget |]. split; [exact Hsame |].
  split; [by rewrite Hsame |].
  split.
  - intros k q <-. by apply (broadcast_finish_invalid _ _ _ (Json I)).
  - intros Ht. unfold request_json. rewrite HI, Hget, Ht. reflexivity.
Qed.

(** An all-zero summary stays cached when [null] arrives for the same
    feed. *)
Lemma invalid_payload_keeps_cached_value_summary :
  let st1 := (request_json Summary "s1" zero_summary constructor).1 in
  cache_get st1 "reportsSummary" = zero_summary
  /\ (request_json Summary "s2" VNull st1).1 = st1.
Proof.
  pose proof (invalid_payload_keeps_cached_value
                (fun _ => None) Summary "s1" "s2" zero_summary VNull
                constructor eq_refl eq_refl) as H.
  cbn zeta in H. exact (conj (proj1 H) (proj1 (proj2 H))).
Defined.

(** *** The re-entrancy guard *)
Section Guard.
Variable ToNumber : value -> option Q.

Lemma call_broadcast_guarded (k : cycle_kind) (trig : bool) (s : system) :
  guarded s -> guarded (call_broadcast k trig s).1.
Proof.
  intros [Hlen Hidle]. unfold call_broadcast, broadcast_start.
  destruct (Nat.eqb (length (connectedClients (svc s))) 0) eqn:Hsize; cbn.
  { by split. }
  destruct (broadcastInProgress (svc s)) eqn:Hflag; cbn.
  { split; cbn; [exact Hlen | rewrite Hflag; discriminate]. }
  rewrite (Hidle eq_refl). split; cbn; [lia | discriminate].
Qed.

Lemma broadcast_finish_flag (k : cycle_kind) (q : value) (o : outcome)
    (st : service) :
  connectedClients (broadcast_finish ToNumber k q o st).1 = connectedClients st.
Proof.
  destruct o; try reflexivity. cbn. unfold broadcast_json.
  destruct k; match goal with |- context [if ?c then _ else _] =>
    destruct c end; reflexivity.
Qed.

Lemma step_guarded (e : event) (s : system) :
  guarded s -> guarded (step ToNumber e s).1.
Proof.
  intros Hs. pose proof Hs as [Hlen Hidle]. destruct e; cbn.
  - done.
  - done.
  - unfold on_request.
    destruct (map_get socket (connectedClients (svc s))); cbn; by split.
  - unfold request_json.
    destruct (accepts data (type_of r)); cbn; by split.
  - done.
  - unfold periodic.
    destruct (_ && _); [by apply call_broadcast_guarded | done].
  - unfold periodic.
    destruct (_ && _); [by apply call_broadcast_guarded | done].
  - unfold triggerReportsUpdate.
    destruct (negb _); [by apply call_broadcast_guarded | done].
  - destruct (timers s) as [|n]; [done |].
    by apply call_broadcast_guarded.
  - destruct (running s) as [|c [|c' rest]] eqn:Hrun; cbn in Hlen; [| | lia].
    + by rewrite lookup_nil.
    + destruct i as [|i]; cbn; [| done].
      destruct (broadcast_finish ToNumber (kind c) (query c) o (svc s)).
      cbn. split; cbn; [lia | done].
Qed.

Lemma run_guarded (es : list event) (s : system) :
  guarded s -> guarded (run ToNumber es s).1.
Proof.
  revert s. induction es as [|e es IH]; intros s Hs; [done |].
  cbn. pose proof (step_guarded e s Hs) as H1.
  destruct (step ToNumber e s) as [s1 out1]. cbn in H1.
  specialize (IH s1 H1).
  destruct (run ToNumber es s1) as [s2 out2]. exact IH.
Qed.

(** C8. Broadcast cycles never overlap.  In every state the service can
    reach, at most one broadcast cycle is in progress, and it holds the
    guard; while the guard is set, a periodic tick, a call of
    [triggerReportsUpdate] or the delayed earnings broadcast starts no
    cycle, calls no controller and schedules nothing: it is skipped, not
    queued. *)
Theorem broadcast_cycles_never_overlap (es : list event) :
  let s := (run ToNumber es boot).1 in
  (length (running s) <= 1)%nat
  /\ (running s <> [] -> broadcastInProgress (svc s) = true)
  /\ (broadcastInProgress (svc s) = true ->
      forall e, is_trigger e = true ->
        running (step ToNumber e s).1 = running s
        /\ svc (step ToNumber e s).1 = svc s
        /\ (timers (step ToNumber e s).1 <= timers s)%nat
        /\ (step ToNumber e s).2 = []).
Proof.
  cbn zeta.
  assert (Hg : guarded (run ToNumber es boot).1).
  { apply run_guarded. split; [cbn; lia | done]. }
  destruct Hg as [Hlen Hidle].
  generalize dependent ((run ToNumber es boot).1). intros s Hlen Hidle.
  split; [exact Hlen |]. split.
  - intros Hne. destruct (broadcastInProgress (svc s)); [done |].
    by specialize (Hidle eq_refl).
  - intros Hflag e He.
    destruct e; try discriminate He; cbn.
    + unfold periodic. rewrite Hflag, andb_false_r. by cbn.
    + unfold periodic. rewrite Hflag, andb_false_r. by cbn.
    + unfold triggerReportsUpdate. rewrite Hflag. by cbn.
    + destruct (timers s) as [|n] eqn:Ht; cbn; [rewrite Ht; done |].
      unfold call_broadcast, broadcast_start. cbn.
      rewrite Hflag, orb_true_r. cbn. repeat split; lia.
Qed.
End Guard.

(** With one client connected, a periodic tick starts a cycle, and a
    [triggerReportsUpdate] that arrives before the controller answers does
    nothing. *)
Lemma broadcast_cycles_never_overlap_after_tick :
  let s := (run (fun _ => None) [Connection "c1" 0; PeriodicSummary] boot).1 in
  broadcastInProgress (svc s) = true
  /\ length (running s) = 1%nat
  /\ (step (fun _ => None) TriggerReportsUpdate s).2 = [].
Proof.
  split; [reflexivity |]. split; [reflexivity |].
  exact (proj2 (proj2 (proj2
           (proj2 (proj2 (broadcast_cycles_never_overlap
                            (fun _ => None)
                            [Connection "c1" 0; PeriodicSummary]))
                  eq_refl TriggerReportsUpdate eq_refl)))).
Defined.

End ReportsSocketServiceFacts.

(** ** The dispatcher and the data sent on join *)
Section ServerFacts.
Import Js Samples.

(** C7. The payload that [broadcast] delivers carries every field of the
    caller's payload unchanged, except [timestamp], which is always the
    dispatcher's timestamp, whatever the caller put there; it goes to the
    given room, or to everyone when no room is given. *)
Theorem broadcast_preserves_fields_and_stamps (timestamp event : string)
    (data : value) (room : option string) :
  let payload := Server.delivered (Server.broadcast timestamp event data room) in
  get payload "timestamp" = VStr timestamp
  /\ (forall k, k <> "timestamp" ->
        get payload k = default VUndefined (own_enumerable data !! k))
  /\ (forall fs k, data = VObj fs -> k <> "timestamp" ->
        get payload k = get data k)
  /\ (forall r, room = Some r -> r <> "" ->
        Server.broadcast timestamp event data room
        = Server.RoomEmit r event payload)
  /\ (room = None ->
        Server.broadcast timestamp event data room
        = Server.AllEmit event payload).
Proof.
  cbn zeta.
  assert (Hp : Server.delivered (Server.broadcast timestamp event data room)
               = spread_with data "timestamp" (VStr timestamp)).
  { unfold Server.broadcast. destruct room as [r|]; [| reflexivity].
    by destruct (negb (String.eqb r "")). }
  rewrite Hp. unfold spread_with.
  split; [cbn; by rewrite lookup_insert_eq |].
  split; [intros k Hk; cbn; by rewrite lookup_insert_ne |].
  split; [intros fs k -> Hk; cbn; by rewrite lookup_insert_ne |].
  split.
  - intros r -> Hr. unfold Server.broadcast.
    destruct (String.eqb_spec r ""); [done | reflexivity].
  - intros ->. reflexivity.
Qed.

(** A caller's own [timestamp] is replaced and its [id] is kept. *)
Lemma broadcast_overwrites_caller_timestamp :
  let data := VObj (list_to_map [("timestamp", VStr "stale"); ("id", VNum 7)]) in
  let payload :=
    Server.delivered (Server.broadcast "2024-01-01T00:00:00.000Z" "vehicleUpdate"
                                       data (Some "vehicles")) in
  get payload "timestamp" = VStr "2024-01-01T00:00:00.000Z"
  /\ get payload "id" = VNum 7.
Proof.
  cbn zeta. split; [reflexivity |].
  exact (proj1 (proj2 (proj2
           (broadcast_preserves_fields_and_stamps
              "2024-01-01T00:00:00.000Z" "vehicleUpdate"
              (VObj (list_to_map [("timestamp", VStr "stale"); ("id", VNum 7)]))
              (Some "vehicles"))))
           _ "id" eq_refl ltac:(discriminate)).
Defined.

(** C6, as stated, fails: with a valid summary in the cache, joining the
    room of the reports feed sends no event at all to the joining
    connection. *)
Lemma join_room_sends_no_cached_snapshot :
  ~ (forall (st : ReportsSocketService.service) db timestamp clients socket V,
        ReportsSocketService.lastDataCache st !! "reportsSummary" = Some V ->
        ReportsSocketService.accepts V "summary" = true ->
        exists event,
          Server.SocketEmit socket event V
          ∈ (Server.on_join_room db timestamp socket "reports" clients).2).
Proof.
  intros H.
  destruct (H (ReportsSocketService.set_cache "reportsSummary" zero_summary
                 ReportsSocketService.constructor)
              {| Server.find := fun _ => inl []; Server.getDashboardStats := None |}
              "t" ∅ "s1" zero_summary eq_refl eq_refl) as [event Hin].
  cbn in Hin. apply list_elem_of_singleton in Hin. discriminate.
Qed.

Lemma sendCachedDataToClient_no_store (socket : string)
    (st : ReportsSocketService.service) :
  forallb (fun e => negb (ReportsSocketService.is_store_access e))
          (ReportsSocketService.sendCachedDataToClient socket st) = true.
Proof.
  unfold ReportsSocketService.sendCachedDataToClient.
  repeat match goal with |- context [if ?c then _ else _] => destruct c end;
    reflexivity.
Qed.

(** C6, amended.  A connection to the reports service is sent at once,
    without any store or controller access, every snapshot among the
    summary, earnings and driver-performance feeds that is cached and still
    valid.  Joining a room consults no cache: for the vehicles, drivers,
    rides, admin-management and dashboard rooms the handler first queries
    the store and sends afterwards, and for the reports room it sends
    nothing. *)
Theorem cached_snapshots_sent_on_connection (socket : string) (now : Z)
    (st : ReportsSocketService.service) :
  let out := (ReportsSocketService.on_connection socket now st).2 in
  forallb (fun e => negb (ReportsSocketService.is_store_access e)) out = true
  /\ (forall r,
        r <> ReportsSocketService.Rides ->
        let cached :=
          ReportsSocketService.cache_get st (ReportsSocketService.cache_key r) in
        truthy cached = true ->
        ReportsSocketService.accepts cached (ReportsSocketService.type_of r) = true ->
        ReportsSocketService.SocketEmit
          socket (ReportsSocketService.data_event r) cached ∈ out)
  /\ (forall db timestamp clients room,
        room ∈ ["vehicles"; "drivers"; "dashboard"; "rides"; "admin-management"] ->
        exists e rest,
          (Server.on_join_room db timestamp socket room clients).2
          = Server.SocketJoin socket room :: e :: rest
          /\ Server.is_store_access e = true)
  /\ (forall db timestamp clients,
        (Server.on_join_room db timestamp socket "reports" clients).2
        = [Server.SocketJoin socket "reports"]).
Proof.
  cbn zeta. split; [apply sendCachedDataToClient_no_store |].
  split.
  { intros r Hr Ht Hv. cbn.
    unfold ReportsSocketService.sendCachedDataToClient.
    change (ReportsSocketService.cache_get
              (ReportsSocketService.set_clients _ st))
      with (ReportsSocketService.cache_get st).
    destruct r; try done; cbn in Ht, Hv; rewrite Ht, Hv; cbn;
      rewrite ?elem_of_app, ?elem_of_cons; auto. }
  split.
  { intros db timestamp clients room Hroom.
    repeat (apply elem_of_cons in Hroom as [-> | Hroom]);
      [eexists _, _; split; [reflexivity | reflexivity] ..|].
    by apply elem_of_nil in Hroom. }
  reflexivity.
Qed.

(** A cached summary is sent to a client as it connects. *)
Lemma cached_summary_sent_on_connection :
  let st := ReportsSocketService.set_cache "reportsSummary" zero_summary
              ReportsSocketService.constructor in
  ReportsSocketService.SocketEmit "s1" "reportsSummaryData" zero_summary
  ∈ (ReportsSocketService.on_connection "s1" 0 st).2.
Proof.
  exact (proj1 (proj2
           (cached_snapshots_sent_on_connection "s1" 0
              (ReportsSocketService.set_cache "reportsSummary" zero_summary
                 ReportsSocketService.constructor)))
           ReportsSocketService.Summary ltac:(discriminate) eq_refl eq_refl).
Defined.

End ServerFacts.

(** ** The driver simulation *)
Section SimulationFacts.
Import Simulation Samples.

Lemma int_or_zero (x : Z) : int_or x 0 = x.
Proof. unfold int_or. destruct (Z.eqb_spec x 0); congruence. Qed.

Example currentETA_examples :
  currentETA (Some "15 mins") = 15 /\ currentETA (Some "1 mins") = 1
  /\ currentETA (Some "soon") = 0 /\ currentETA None = 0
  /\ currentETA (Some "ETA 07 min") = 7.
Proof. repeat split; reflexivity. Qed.

Example last6_example : last6 1700000123456 = "123456".
Proof. reflexivity. Qed.

(** C1, as stated, fails: when the trip-assignment draw of the same tick
    comes out below 0.1, the driver that has just been set idle is given a
    new trip at once, and the update written for the tick has status
    "active" and a destination. *)
Lemma completed_trip_can_be_reassigned_at_once :
  ~ (forall sim now r d,
        status d = "active" -> destination d <> None ->
        currentETA (eta d) <= 1 ->
        let p := (simulate_driver sim now r d).1 in
        p_status p = "idle"
        /\ p_destination p = None /\ p_passenger p = None
        /\ p_tripId p = None /\ p_eta p = None
        /\ p_completedTrips p = completedTrips d + 1).
Proof.
  intros H.
  specialize (H still_simulator 1700000123456 (all_draws 0) (arriving_driver "d1")
                eq_refl ltac:(discriminate) ltac:(vm_compute; discriminate)).
  destruct H as [Hstatus _]. vm_compute in Hstatus. discriminate.
Qed.

(** A destination that is the empty string is not null, yet the trip of such
    a driver is never completed. *)
Example empty_destination_is_not_completed :
  let p := (simulate_driver still_simulator 0 (all_draws (1 # 2))
                            driver_without_destination_text).1 in
  p_status p = "active" /\ p_completedTrips p = 4
  /\ p_tripId p = Some "TRP000123".
Proof. repeat split; reflexivity. Qed.

Lemma trip_progress_completes (r : Draws) (d : Driver) :
  status d = "active" -> str_truthy (destination d) = true ->
  currentETA (eta d) <= 1 ->
  trip_progress r d
  = (with_trip d "idle" None None None (completedTrips d + 1), None).
Proof.
  intros Hs Hd He. unfold trip_progress. rewrite Hs, Hd. cbn.
  destruct (Z.ltb_spec 1 (currentETA (eta d))); [lia |].
  by rewrite int_or_zero.
Qed.

(** C1, amended.  For a driver with status "active", a destination that is
    neither null nor empty and a parsed ETA of at most 1, the tick completes
    the trip: the trip-progress step sets status "idle", clears destination,
    passenger and tripId together with the ETA, and adds exactly 1 to
    completedTrips.  The single update written for the tick carries the
    incremented counter in every case; it carries status "idle" with the four
    trip fields null whenever the trip-assignment draw of the same tick is
    not below 0.1, and otherwise the four fields of the newly assigned trip,
    all set. *)
Theorem tick_completes_trip (sim : locationSimulator) (now : Z) (r : Draws)
    (d : Driver) :
  status d = "active" -> str_truthy (destination d) = true ->
  currentETA (eta d) <= 1 ->
  let p := (simulate_driver sim now r d).1 in
  trip_progress r d
  = (with_trip d "idle" None None None (completedTrips d + 1), None)
  /\ p_completedTrips p = completedTrips d + 1
  /\ (below (r_assign r) (1 # 10) = false ->
      p_status p = "idle"
      /\ p_destination p = None /\ p_passenger p = None
      /\ p_tripId p = None /\ p_eta p = None)
  /\ (below (r_assign r) (1 # 10) = true ->
      (p_status p = "active" \/ p_status p = "emergency")
      /\ is_Some (p_destination p) /\ is_Some (p_passenger p)
      /\ is_Some (p_tripId p) /\ is_Some (p_eta p)).
Proof.
  intros Hs Hd He. cbn zeta.
  pose proof (trip_progress_completes r d Hs Hd He) as Htp.
  split; [exact Htp |].
  unfold simulate_driver. rewrite Htp.
  destruct (simulate_motion sim r d) as [[loc spd] bat].
  unfold trip_assignment. cbn [status with_trip].
  change (String.eqb "idle" "idle") with true. cbn [andb].
  destruct (below (r_assign r) (1 # 10)) eqn:Hassign.
  - unfold emergency_injection. cbn [status with_trip].
    change (String.eqb "active" "active") with true. cbn [andb].
    destruct (below (r_emergency r) (5 # 1000)) eqn:Hem.
    + unfold emergency_resolution, with_status. cbn [status with_trip].
      change (String.eqb "emergency" "emergency") with true. cbn [andb].
      destruct (below (r_resolve r) (2 # 10)); cbn;
        (split; [apply int_or_zero |]); (split; [discriminate |]);
        intros _; repeat split; eauto.
    + unfold emergency_resolution. cbn.
      split; [apply int_or_zero |]. split; [discriminate |].
      intros _; repeat split; eauto.
  - cbn. split; [apply int_or_zero |]. split; [| discriminate].
    intros _. repeat split.
Qed.

(** A driver one minute from arrival, in a tick without a new assignment. *)
Lemma tick_completes_trip_of_arriving_driver :
  let p := (simulate_driver still_simulator 1700000123456 (all_draws (1 # 2))
                            (arriving_driver "d1")).1 in
  p_status p = "idle" /\ p_destination p = None /\ p_passenger p = None
  /\ p_tripId p = None /\ p_eta p = None /\ p_completedTrips p = 5.
Proof.
  pose proof (tick_completes_trip still_simulator 1700000123456
                (all_draws (1 # 2)) (arriving_driver "d1")
                eq_refl eq_refl ltac:(vm_compute; discriminate)) as H.
  cbn zeta in H. destruct H as (_ & Hc & Hidle & _).
  destruct (Hidle eq_refl) as (H1 & H2 & H3 & H4 & H5).
  exact (conj H1 (conj H2 (conj H3 (conj H4 (conj H5 Hc))))).
Defined.

(** *** A rejected write *)

Lemma simulate_driver_alerts (sim : locationSimulator) (now : Z) (r : Draws)
    (d : Driver) :
  forallb (fun e => negb (is_end_of_tick_broadcast e))
          (simulate_driver sim now r d).2 = true.
Proof.
  unfold simulate_driver.
  destruct (simulate_motion sim r d) as [[loc spd] bat].
  destruct (trip_assignment sim now r spd (trip_progress r d)) as [d1 e1].
  unfold emergency_injection.
  destruct (String.eqb (status d1) "active" && below (r_emergency r) (5 # 1000));
    reflexivity.
Qed.

(** While no write is rejected the loop runs on; what it does on a prefix of
    the drivers does not depend on the drivers after it. *)
Lemma simulate_loop_prefix (sim : locationSimulator) (now : Z)
    (env : nat -> turn) (pre rest : list Driver) :
  forall (i : nat) (coll : list Driver) (updated : list (option Driver))
         (out : list emitted),
    (forall j, (j < length pre)%nat -> write_fails (env (i + j)%nat) = false) ->
    forallb (fun e => negb (is_end_of_tick_broadcast e)) out = true ->
    exists coll' updated' out',
      simulate_loop sim now env i pre coll updated out
      = Finished coll' updated' out'
      /\ simulate_loop sim now env i (pre ++ rest) coll updated out
         = simulate_loop sim now env (i + length pre) rest coll' updated' out'
      /\ forallb (fun e => negb (is_end_of_tick_broadcast e)) out' = true.
Proof.
  induction pre as [|d pre IH]; intros i coll updated out Hok Hout.
  - exists coll, updated, out. cbn. by rewrite Nat.add_0_r.
  - cbn [simulate_loop app].
    pose proof (simulate_driver_alerts sim now (draws (env i)) d) as Halerts.
    destruct (simulate_driver sim now (draws (env i)) d) as [patch alerts].
    cbn in Halerts.
    pose proof (Hok 0%nat ltac:(cbn; lia)) as H0. rewrite Nat.add_0_r in H0.
    rewrite H0.
    destruct (findByIdAndUpdate (_id d) patch coll) as [res coll1].
    destruct (IH (S i) coll1 (updated ++ [res]) (out ++ alerts)) as
      (coll' & updated' & out' & Hpre & Hall & Hout').
    + intros j Hj. replace (S i + j)%nat with (i + S j)%nat by lia.
      apply Hok. cbn. lia.
    + rewrite forallb_app, Hout, Halerts. reflexivity.
    + exists coll', updated', out'. split; [exact Hpre |].
      split; [| exact Hout'].
      rewrite Hall. cbn [length]. f_equal. lia.
Qed.

(** C5, as stated, fails: when the store rejects the write of the first of
    two online drivers, the second is not included in any broadcast of the
    tick. *)
Lemma rejected_write_stops_the_whole_tick :
  ~ (forall sim now env coll i,
        write_fails (env i) = true ->
        (forall j, j <> i -> write_fails (env j) = false) ->
        forall j d,
          j <> i -> find_online coll !! j = Some d ->
          exists data timestamp,
            DriversUpdate data timestamp ∈ (simulation_tick sim now env coll).2
            /\ exists d', Some d' ∈ data /\ _id d' = _id d).
Proof.
  intros H.
  destruct (H still_simulator 0 (failing_at 0 (1 # 2))
              [arriving_driver "d1"; arriving_driver "d2"] 0%nat eq_refl
              ltac:(intros [|j] Hj; [done | reflexivity])
              1%nat (arriving_driver "d2") ltac:(discriminate) eq_refl)
    as (data & timestamp & Hin & _).
  vm_compute in Hin. by apply elem_of_nil in Hin.
Qed.

Example rejected_write_leaves_later_driver_unwritten :
  simulation_tick still_simulator 0 (failing_at 0 (1 # 2))
                  [arriving_driver "d1"; arriving_driver "d2"]
  = ([arriving_driver "d1"; arriving_driver "d2"], []).
Proof. reflexivity. Qed.

(** C5, amended.  When the store rejects the write of one driver, the tick
    ends there: the drivers iterated before it have been simulated and
    written exactly as if the loop had run over them alone, neither the
    rejected driver nor any driver after it is written, and the tick emits
    no drivers-update and no location-update broadcast (only the emergency
    alerts raised on the way). *)
Theorem rejected_write_ends_tick (sim : locationSimulator) (now : Z)
    (env : nat -> turn) (coll pre post : list Driver) (d : Driver) :
  find_online coll = pre ++ d :: post ->
  (forall j, (j < length pre)%nat -> write_fails (env j) = false) ->
  write_fails (env (length pre)) = true ->
  exists coll' updated out,
    simulate_loop sim now env 0 pre coll [] [] = Finished coll' updated out
    /\ (simulation_tick sim now env coll).1 = coll'
    /\ forallb (fun e => negb (is_end_of_tick_broadcast e))
               (simulation_tick sim now env coll).2 = true.
Proof.
  intros Hfind Hok Hfail.
  destruct (simulate_loop_prefix sim now env pre (d :: post) 0 coll [] [])
    as (coll' & updated & out & Hpre & Hall & Hout); [exact Hok | reflexivity |].
  exists coll', updated, out. split; [exact Hpre |].
  unfold simulation_tick. rewrite Hfind, Hall. cbn [simulate_loop Nat.add].
  pose proof (simulate_driver_alerts sim now (draws (env (length pre))) d)
    as Halerts.
  destruct (simulate_driver sim now (draws (env (length pre))) d)
    as [patch alerts].
  rewrite Hfail. cbn. split; [reflexivity |].
  rewrite forallb_app, Hout. exact Halerts.
Qed.

(** Two online drivers, the write of the second rejected: the first is
    written, nothing is broadcast. *)
Lemma rejected_write_ends_tick_of_two :
  exists coll' updated out,
    simulate_loop still_simulator 0 (failing_at 1 (1 # 2)) 0
                  [arriving_driver "d1"]
                  [arriving_driver "d1"; arriving_driver "d2"] [] []
    = Finished coll' updated out
    /\ (simulation_tick still_simulator 0 (failing_at 1 (1 # 2))
                        [arriving_driver "d1"; arriving_driver "d2"]).1 = coll'
    /\ forallb (fun e => negb (is_end_of_tick_broadcast e))
               (simulation_tick still_simulator 0 (failing_at 1 (1 # 2))
                  [arriving_driver "d1"; arriving_driver "d2"]).2 = true.
Proof.
  apply (rejected_write_ends_tick still_simulator 0 (failing_at 1 (1 # 2))
           [arriving_driver "d1"; arriving_driver "d2"]
           [arriving_driver "d1"] [] (arriving_driver "d2")).
  - reflexivity.
  - intros [|j] Hj; [reflexivity | cbn in Hj; lia].
  - reflexivity.
Defined.

End SimulationFacts.

(** ** Change streams and reconnection *)
Section ChangeStreamFacts.
Import Server.

Lemma model_eqb_eq (a b : model) : model_eqb a b = true <-> a = b.
Proof. destruct a, b; cbn; split; congruence. Qed.

Lemma model_eqb_refl (a : model) : model_eqb a a = true.
Proof. by apply model_eqb_eq. Qed.

Lemma model_eqb_neq (a b : model) : a <> b -> model_eqb a b = false.
Proof.
  intros H. destruct (model_eqb a b) eqn:E; [| done].
  by apply model_eqb_eq in E.
Qed.

Lemma model_cases (a b : model) : a = b \/ a <> b.
Proof. destruct a, b; (by left) || (by right). Qed.

Lemma set_watcher_same (m : model) (w : watcher) (ws : model -> watcher) :
  set_watcher m w ws m = w.
Proof. unfold set_watcher. by rewrite model_eqb_refl. Qed.

Lemma set_watcher_other (m m' : model) (w : watcher) (ws : model -> watcher) :
  m <> m' -> set_watcher m w ws m' = ws m'.
Proof. intros H. unfold set_watcher. by rewrite model_eqb_neq. Qed.

(** Closing streams can only shrink what a watcher holds. *)
Lemma held_after_filter (m : model) (P : subscription -> bool)
    (l : list subscription) :
  (length (filter (held_by_watcher m) (filter P l))
   <= length (filter (held_by_watcher m) l))%nat
  /\ forall x, x ∈ filter (held_by_watcher m) (filter P l) ->
               x ∈ filter (held_by_watcher m) l /\ P x = true.
Proof.
  split.
  - induction l as [|y l IH]; [done |].
    rewrite !filter_cons.
    destruct (decide (P y)) as [Hp | Hp]; rewrite ?filter_cons;
      destruct (decide (held_by_watcher m y)); cbn; lia.
  - intros x Hx. apply list_elem_of_filter in Hx as [Hh Hx].
    apply list_elem_of_filter in Hx as [Hp Hx].
    split; [apply list_elem_of_filter; done | by apply Is_true_eq_true].
Qed.

Lemma filter_none {A} (P : A -> bool) (l : list A) :
  (forall x, x ∈ filter P l -> False) -> filter P l = [].
Proof.
  intros H. destruct (filter P l) as [|x rest]; [done |].
  destruct (H x). apply list_elem_of_here.
Qed.

Lemma on_error_or_close_keeps_one_stream (m : model) (s : streams) :
  one_stream_per_watcher s -> one_stream_per_watcher (on_error_or_close m s).
Proof.
  intros [Hw Ht]. split.
  - intros m'. unfold watcher_subscriptions. cbn [open watchers on_error_or_close].
    split; [apply (proj1 (Hw m')) |].
    intros x Hx. destruct (model_cases m m') as [<- | Hne].
    + rewrite set_watcher_same. cbn. by apply (proj2 (Hw m)).
    + rewrite set_watcher_other by done. by apply (proj2 (Hw m')).
  - cbn. apply Forall_app. split; [exact Ht |]. by constructor.
Qed.

(** After the head of [setupStream] the watcher holds no open stream. *)
Lemma close_previous_releases (m : model) (close_emits : bool) (s : streams) :
  one_stream_per_watcher s ->
  one_stream_per_watcher (close_previous m close_emits s)
  /\ filter (held_by_watcher m) (open (close_previous m close_emits s)) = [].
Proof.
  intros Hs. pose proof Hs as [Hw Ht]. unfold close_previous.
  destruct (changeStream (watchers s m)) as [old|] eqn:Hcs.
  - set (s1 := {| watchers := watchers s; open := close_stream old (open s);
                  timers := timers s; next := next s |}).
    assert (Hs1 : one_stream_per_watcher s1).
    { split; [| exact Ht]. intros m'. unfold watcher_subscriptions.
      cbn [open watchers s1]. unfold close_stream.
      destruct (held_after_filter m' (fun x => negb (Nat.eqb (sid x) old)) (open s))
        as [Hl Hin].
      split; [pose proof (proj1 (Hw m')) as H1;
              unfold watcher_subscriptions in H1; lia |].
      intros x Hx. apply Hin in Hx as [Hx _]. by apply (proj2 (Hw m')). }
    assert (Hnone : filter (held_by_watcher m) (open s1) = []).
    { apply filter_none. intros x Hx. cbn [open s1] in Hx.
      unfold close_stream in Hx.
      apply (held_after_filter m (fun x => negb (Nat.eqb (sid x) old))) in Hx
        as [Hx Hne].
      apply (proj2 (Hw m)) in Hx. rewrite Hcs in Hx. injection Hx as ->.
      by rewrite Nat.eqb_refl in Hne. }
    destruct close_emits; [| done].
    split; [by apply on_error_or_close_keeps_one_stream | exact Hnone].
  - split; [exact Hs |]. apply filter_none. intros x Hx.
    apply (proj2 (Hw m)) in Hx. congruence.
Qed.

Lemma setupStream_keeps_one_stream (m : model) (watch_ok close_emits : bool)
    (s : streams) :
  one_stream_per_watcher s ->
  one_stream_per_watcher (setupStream m watch_ok close_emits s).
Proof.
  intros Hs. unfold setupStream.
  destruct (close_previous_releases m close_emits s Hs) as [[Hw Ht] Hnone].
  generalize dependent (close_previous m close_emits s). intros s1 Hw Ht Hnone.
  destruct watch_ok; [| by apply on_error_or_close_keeps_one_stream].
  split; [| exact Ht].
  intros m'. unfold watcher_subscriptions. cbn [open watchers].
  rewrite filter_app, filter_cons, filter_nil.
  destruct (model_cases m m') as [<- | Hne].
  - rewrite Hnone, set_watcher_same. cbn [app changeStream].
    destruct (decide (held_by_watcher m
                {| sid := next s1; coll := m; by_setupStream := true |}));
      cbn [length]; (split; [lia |]); intros x Hx.
    + apply list_elem_of_singleton in Hx as ->. reflexivity.
    + by apply elem_of_nil in Hx.
  - rewrite set_watcher_other by done.
    destruct (decide (held_by_watcher m'
                {| sid := next s1; coll := m; by_setupStream := true |}))
      as [Hh | Hh].
    { unfold held_by_watcher in Hh. cbn in Hh.
      rewrite (model_eqb_neq m m' Hne) in Hh. done. }
    rewrite app_nil_r. exact (Hw m').
Qed.

Lemma watch_direct_keeps_one_stream (m : model) (s : streams) :
  one_stream_per_watcher s -> one_stream_per_watcher (watch_direct m s).
Proof.
  intros [Hw Ht]. split; [| exact Ht].
  intros m'. unfold watcher_subscriptions. cbn [open watchers watch_direct].
  rewrite filter_app, filter_cons, filter_nil.
  destruct (decide (held_by_watcher m'
              {| sid := next s; coll := m; by_setupStream := false |})) as [Hh | Hh].
  { unfold held_by_watcher in Hh. cbn in Hh. by rewrite andb_false_r in Hh. }
  rewrite app_nil_r. exact (Hw m').
Qed.

Lemma stream_step_keeps_one_stream (e : stream_event) (s : streams) :
  one_stream_per_watcher s -> one_stream_per_watcher (stream_step e s).
Proof.
  intros Hs. pose proof Hs as [Hw Ht]. destruct e as [m | m id | i ok ce]; cbn.
  - by apply on_error_or_close_keeps_one_stream.
  - apply on_error_or_close_keeps_one_stream. split; [| exact Ht].
    intros m'. unfold watcher_subscriptions. cbn [open watchers].
    destruct (held_after_filter m'
                (fun x => negb (made_by_setupStream m id x)) (open s))
      as [Hl Hin].
    split; [pose proof (proj1 (Hw m')) as H1;
            unfold watcher_subscriptions in H1; lia |].
    intros x Hx. apply Hin in Hx as [Hx _]. by apply (proj2 (Hw m')).
  - destruct (timers s !! i) as [[m delay]|] eqn:Hi; [| exact Hs].
    unfold on_timer. cbn [watchers].
    assert (Hs' : one_stream_per_watcher
                    {| watchers := watchers s; open := open s;
                       timers := delete i (timers s); next := next s |}).
    { split; [exact Hw |]. cbn.
      by apply Forall_delete. }
    destruct (negb (isConnected (watchers s m))); [| exact Hs'].
    by apply setupStream_keeps_one_stream.
Qed.

Lemma on_open_keeps_one_stream (watch_ok : model -> bool) :
  one_stream_per_watcher (on_open watch_ok).
Proof.
  unfold on_open, setupDirectDbChangeDetection, setupChangeStreams.
  repeat apply watch_direct_keeps_one_stream.
  repeat apply setupStream_keeps_one_stream.
  split; [| constructor].
  intros m. split; [cbn; lia |]. intros x Hx. by apply elem_of_nil in Hx.
Qed.

Lemma stream_run_keeps_one_stream (es : list stream_event) (s : streams) :
  one_stream_per_watcher s -> one_stream_per_watcher (stream_run es s).
Proof.
  revert s. induction es as [|e es IH]; intros s Hs; [exact Hs |].
  cbn. apply IH. by apply stream_step_keeps_one_stream.
Qed.



(** After one error there is one timer, and its firing re-subscribes. *)
Lemma watcher_retries_once_after_error :
  let s := stream_run [StreamError Vehicles] (on_open (fun _ => true)) in
  timers s = [(Vehicles, 5000)]
  /\ open (stream_step (TimerFires 0 true false) s)
     <> open s.
Proof.
  split; [reflexivity |]. vm_compute. discriminate.
Qed.


End ChangeStreamFacts.

(** ** More on the driver simulation *)
Section SimulationTickFacts.
Import Simulation Samples.

Lemma findByIdAndUpdate_keeps (id : string) (p : Patch) (coll : list Driver) :
  (fun d => (_id d, name d, isOnline d)) <$> (findByIdAndUpdate id p coll).2
  = (fun d => (_id d, name d, isOnline d)) <$> coll.
Proof.
  induction coll as [|d coll IH]; [reflexivity |].
  cbn [findByIdAndUpdate]. destruct (String.eqb (_id d) id); [reflexivity |].
  destruct (findByIdAndUpdate id p coll) as [res rest]. cbn in *.
  by rewrite IH.
Qed.

Lemma findByIdAndUpdate_other (id : string) (p : Patch) (coll : list Driver)
    (i : nat) (d : Driver) :
  coll !! i = Some d -> _id d <> id ->
  (findByIdAndUpdate id p coll).2 !! i = Some d.
Proof.
  revert i. induction coll as [|d0 coll IH]; intros i Hi Hne; [done |].
  cbn [findByIdAndUpdate]. destruct (String.eqb_spec (_id d0) id) as [Heq | Hneq].
  - destruct i as [|i]; cbn in *; [| exact Hi]. congruence.
  - destruct (findByIdAndUpdate id p coll) as [res rest] eqn:E. cbn.
    destruct i as [|i]; cbn in *; [exact Hi |].
    exact (IH i Hi Hne).
Qed.

(** What the loop leaves in place, whether it finishes or is thrown out. *)
Lemma simulate_loop_keeps (sim : locationSimulator) (now : Z)
    (env : nat -> turn) (P : list Driver -> Prop) (drivers : list Driver) :
  (forall id p c, (exists d, d ∈ drivers /\ _id d = id) -> P c ->
                  P (findByIdAndUpdate id p c).2) ->
  forall i coll updated out,
    P coll ->
    match simulate_loop sim now env i drivers coll updated out with
    | Finished c _ _ | Thrown c _ => P c
    end.
Proof.
  induction drivers as [|d drivers IH]; intros Hstep i coll updated out HP;
    [exact HP |].
  cbn [simulate_loop].
  destruct (simulate_driver sim now (draws (env i)) d) as [patch alerts].
  destruct (write_fails (env i)); [exact HP |].
  destruct (findByIdAndUpdate (_id d) patch coll) as [res coll1] eqn:E.
  apply IH.
  - intros id p c [d' [Hd' Hid]] Hc. apply Hstep; [| exact Hc].
    exists d'. split; [by apply elem_of_cons; right | exact Hid].
  - specialize (Hstep (_id d) patch coll). rewrite E in Hstep.
    apply Hstep; [| exact HP]. exists d. split; [apply list_elem_of_here | done].
Qed.

(** X1. A tick never adds, removes, renames or reorders documents and never
    changes who is online, whatever the draws and however the writes end. *)
Theorem tick_keeps_the_documents (sim : locationSimulator) (now : Z)
    (env : nat -> turn) (coll : list Driver) :
  (fun d => (_id d, name d, isOnline d)) <$> (simulation_tick sim now env coll).1
  = (fun d => (_id d, name d, isOnline d)) <$> coll.
Proof.
  unfold simulation_tick.
  pose proof (simulate_loop_keeps sim now env
                (fun c => (fun d => (_id d, name d, isOnline d)) <$> c
                          = (fun d => (_id d, name d, isOnline d)) <$> coll)
                (find_online coll)) as H.
  cbn beta in H.
  specialize (H ltac:(intros id p c _ Hc; by rewrite findByIdAndUpdate_keeps)
                0%nat coll [] [] eq_refl).
  destruct (simulate_loop sim now env 0 (find_online coll) coll [] []);
    exact H.
Qed.

(** X2. When the identifiers of the collection are distinct, a tick leaves
    every offline driver exactly as it was. *)
Theorem tick_leaves_offline_drivers (sim : locationSimulator) (now : Z)
    (env : nat -> turn) (coll : list Driver) (i : nat) (d : Driver) :
  NoDup (_id <$> coll) ->
  coll !! i = Some d -> isOnline d = false ->
  (simulation_tick sim now env coll).1 !! i = Some d.
Proof.
  intros Hnd Hi Hoff. unfold simulation_tick.
  pose proof (simulate_loop_keeps sim now env
                (fun c => c !! i = Some d) (find_online coll)) as H.
  assert (Hstep : forall id p c,
             (exists d', d' ∈ find_online coll /\ _id d' = id) ->
             c !! i = Some d -> (findByIdAndUpdate id p c).2 !! i = Some d).
  { intros id p c [d' [Hd' Hid]] Hc. apply findByIdAndUpdate_other; [exact Hc |].
    intros Heq. apply list_elem_of_filter in Hd' as [Hon Hd'].
    apply list_elem_of_lookup in Hd' as [j Hj].
    assert (Hij : i = j).
    { eapply NoDup_lookup; [exact Hnd | |].
      - rewrite list_lookup_fmap, Hi. reflexivity.
      - rewrite list_lookup_fmap, Hj. cbn. congruence. }
    subst j. rewrite Hi in Hj. injection Hj as <-.
    rewrite Hoff in Hon. done. }
  specialize (H Hstep 0%nat coll [] [] Hi).
  destruct (simulate_loop sim now env 0 (find_online coll) coll [] []);
    exact H.
Qed.

(** The parked driver comes out of a tick as it went in, next to a driver
    on a trip. *)
Lemma tick_leaves_parked_driver :
  (simulation_tick still_simulator 0 (failing_at 7 (1 # 2))
     [en_route_driver; parked_driver]).1 !! 1%nat = Some parked_driver.
Proof.
  apply tick_leaves_offline_drivers; [| reflexivity | reflexivity].
  apply (bool_decide_unpack _). vm_compute. reflexivity.
Defined.

End SimulationTickFacts.

(** ** What one iteration does to a driver *)
Section SimulationDriverFacts.
Import Simulation Samples.

(** The steps after trip progress and assignment change the status only. *)
Lemma simulate_driver_patch (sim : locationSimulator) (now : Z) (r : Draws)
    (d : Driver) :
  let p := (simulate_driver sim now r d).1 in
  let spd := (simulate_motion sim r d).1.2 in
  let de := trip_assignment sim now r spd (trip_progress r d) in
  p_destination p = destination de.1 /\ p_passenger p = passenger de.1
  /\ p_tripId p = tripId de.1 /\ p_eta p = de.2
  /\ p_completedTrips p = completedTrips de.1
  /\ p_status p = status (emergency_resolution r (emergency_injection now r de.1).1).
Proof.
  cbn zeta. unfold simulate_driver.
  destruct (simulate_motion sim r d) as [[loc spd] bat]. cbn [fst snd].
  destruct (trip_assignment sim now r spd (trip_progress r d)) as [d1 e1].
  cbn [fst snd].
  unfold emergency_injection, emergency_resolution, with_status.
  repeat case_match; cbn; rewrite ?int_or_zero; repeat split;
    simplify_eq/=; first [reflexivity | congruence].
Qed.

(** X3. The trip fields stay together: if destination, passenger and trip
    identifier of a driver are all absent or all present before an
    iteration, so are those of the update it writes. *)
Theorem iteration_keeps_trip_fields_together (sim : locationSimulator)
    (now : Z) (r : Draws) (d : Driver) :
  trip_fields_together (destination d) (passenger d) (tripId d) ->
  let p := (simulate_driver sim now r d).1 in
  trip_fields_together (p_destination p) (p_passenger p) (p_tripId p).
Proof.
  intros Hd. cbn zeta.
  destruct (simulate_driver_patch sim now r d) as (-> & -> & -> & _).
  unfold trip_assignment, trip_progress.
  repeat case_match; simplify_eq/=; try exact Hd;
    first [ left; repeat split; reflexivity
          | right; repeat split; eexists; reflexivity ].
Qed.

Lemma iteration_keeps_trip_fields_of_en_route_driver :
  let p := (simulate_driver still_simulator 0 (all_draws (1 # 2))
              en_route_driver).1 in
  trip_fields_together (p_destination p) (p_passenger p) (p_tripId p).
Proof.
  apply (iteration_keeps_trip_fields_together still_simulator 0
           (all_draws (1 # 2)) en_route_driver).
  right. repeat split; eexists; reflexivity.
Defined.

(** X4. The trip counter moves by one exactly when a trip completes: it is
    incremented when the driver is active with a non-empty destination and a
    parsed ETA of at most 1, and is written back unchanged otherwise. *)
Theorem iteration_counts_completed_trips (sim : locationSimulator) (now : Z)
    (r : Draws) (d : Driver) :
  let p := (simulate_driver sim now r d).1 in
  p_completedTrips p
  = if String.eqb (status d) "active" && str_truthy (destination d)
       && (currentETA (eta d) <=? 1)
    then completedTrips d + 1 else completedTrips d.
Proof.
  cbn zeta.
  destruct (simulate_driver_patch sim now r d) as (_ & _ & _ & _ & -> & _).
  unfold trip_assignment, trip_progress.
  destruct (String.eqb (status d) "active" && str_truthy (destination d)); cbn.
  - destruct (Z.ltb_spec 1 (currentETA (eta d))) as [Hlt | Hle];
      destruct (Z.leb_spec (currentETA (eta d)) 1); try lia;
      repeat case_match; simplify_eq/=; rewrite ?int_or_zero; reflexivity.
  - repeat case_match; simplify_eq/=; reflexivity.
Qed.

(** X5. A driver whose status is none of "active", "idle" and "emergency"
    (an offline status on an online driver) only moves: status, trip fields,
    ETA and trip counter are written back as they were, and no alert is
    raised. *)
Theorem iteration_only_moves_other_statuses (sim : locationSimulator)
    (now : Z) (r : Draws) (d : Driver) :
  status d <> "active" -> status d <> "idle" -> status d <> "emergency" ->
  let p := (simulate_driver sim now r d).1 in
  p_status p = status d /\ p_destination p = destination d
  /\ p_passenger p = passenger d /\ p_tripId p = tripId d
  /\ p_eta p = eta d /\ p_completedTrips p = completedTrips d
  /\ (simulate_driver sim now r d).2 = [].
Proof.
  intros Ha Hi He. cbn zeta.
  apply String.eqb_neq in Ha, Hi, He.
  unfold simulate_driver.
  destruct (simulate_motion sim r d) as [[loc spd] bat].
  unfold trip_progress. rewrite Ha. cbn [andb].
  unfold trip_assignment. rewrite Hi. cbn [andb].
  unfold emergency_injection. rewrite Ha. cbn [andb].
  unfold emergency_resolution. rewrite He. cbn.
  rewrite int_or_zero. repeat split.
Qed.

(** An iteration over a driver whose status is "offline", with draws that
    would trigger every random branch. *)
Lemma iteration_only_moves_offline_status :
  let p := (simulate_driver still_simulator 0 (all_draws 0) parked_driver).1 in
  p_status p = "offline" /\ p_completedTrips p = 7
  /\ (simulate_driver still_simulator 0 (all_draws 0) parked_driver).2 = [].
Proof.
  cbn zeta.
  destruct (iteration_only_moves_other_statuses still_simulator 0 (all_draws 0)
              parked_driver)
    as (H1 & _ & _ & _ & _ & H6 & H7); try discriminate.
  repeat split; assumption.
Defined.

End SimulationDriverFacts.

(** ** The ETA text *)
Section EtaFacts.
Import Simulation Samples.

Lemma pretty_N_char_digit (x : N) :
  (x < 10)%N ->
  is_digit (pretty_N_char x) = true
  /\ Z.of_nat (Ascii.nat_of_ascii (pretty_N_char x)) - 48 = Z.of_N x.
Proof.
  intros Hx.
  assert (x = 0 \/ x = 1 \/ x = 2 \/ x = 3 \/ x = 4 \/ x = 5
          \/ x = 6 \/ x = 7 \/ x = 8 \/ x = 9)%N as H by lia.
  destruct H as [-> | [-> | [-> | [-> | [-> | [-> | [-> | [-> | [-> | ->]]]]]]]]];
    split; reflexivity.
Qed.

Lemma digits_cons_digit (c : Ascii.ascii) (s : string) :
  is_digit c = true -> digits (String c s) = c :: digits s.
Proof.
  intros Hc. unfold digits. cbn [String.list_ascii_of_string].
  rewrite filter_cons_True; [reflexivity | by rewrite Hc].
Qed.

(** Reading the digits of a number written before [s +:+ t] continues from
    that number. *)
Lemma parse_pretty_N_go (t : string) (x : N) :
  forall s,
    fold_left (fun acc c => 10 * acc + (Z.of_nat (Ascii.nat_of_ascii c) - 48))
              (digits (pretty_N_go x s +:+ t)) 0
    = fold_left (fun acc c => 10 * acc + (Z.of_nat (Ascii.nat_of_ascii c) - 48))
                (digits (s +:+ t)) (Z.of_N x).
Proof.
  induction (N.lt_wf_0 x) as [x _ IH]. intros s.
  destruct (N.eq_dec x 0%N) as [-> | Hx]; [by rewrite pretty_N_go_0 |].
  rewrite pretty_N_go_step by lia.
  rewrite IH by (apply N.div_lt; lia).
  destruct (pretty_N_char_digit (x `mod` 10)%N) as [Hd Hv];
    [by apply N.mod_lt |].
  change (String (pretty_N_char (x `mod` 10)) s +:+ t)
    with (String (pretty_N_char (x `mod` 10)) (s +:+ t)).
  rewrite digits_cons_digit by exact Hd. cbn [fold_left].
  f_equal. rewrite Hv.
  pose proof (N.div_mod x 10 ltac:(lia)) as Hdm. lia.
Qed.

Lemma currentETA_Some (s : string) :
  currentETA (Some s) = parse_digits (digits s).
Proof. unfold currentETA. by destruct (digits s). Qed.

(** The decimal text of a non-negative number followed by the unit is parsed
    back to the number. *)
Lemma parse_digits_of_minutes_text (n : Z) :
  0 <= n -> parse_digits (digits (pretty n +:+ " mins")) = n.
Proof.
  intros Hn. destruct n as [|p|p]; [reflexivity | | lia].
  unfold pretty, pretty_Z, pretty, pretty_positive, pretty, pretty_N.
  destruct (decide (N.pos p = 0%N)) as [Hp | _]; [discriminate |].
  unfold parse_digits. rewrite (parse_pretty_N_go " mins" (N.pos p) "").
  reflexivity.
Qed.



Lemma floor_of_doubled_draw (r : Q) :
  (0 <= r)%Q -> (r < 1)%Q -> 0 <= Qfloor (r * 2) <= 1.
Proof.
  intros H0 H1. split.
  - change 0 with (Qfloor 0). apply Qfloor_resp_le. lra.
  - pose proof (Qfloor_le (r * 2)) as Hf.
    assert (Hlt : (inject_Z (Qfloor (r * 2)) < inject_Z 2)%Q).
    { eapply Qle_lt_trans; [exact Hf |]. change (inject_Z 2) with 2%Q. lra. }
    rewrite <- Zlt_Qlt in Hlt. lia.
Qed.



End EtaFacts.

(** ** A tick whose writes all succeed *)
Section SimulationBroadcastFacts.
Import Simulation Samples.

Lemma simulate_loop_finished_length (sim : locationSimulator) (now : Z)
    (env : nat -> turn) (drivers : list Driver) :
  forall i coll updated out c u o,
    simulate_loop sim now env i drivers coll updated out = Finished c u o ->
    length u = (length updated + length drivers)%nat.
Proof.
  induction drivers as [|d drivers IH]; intros i coll updated out c u o H.
  - cbn in H. injection H as _ <- _. cbn. lia.
  - cbn [simulate_loop] in H.
    destruct (simulate_driver sim now (draws (env i)) d) as [patch alerts].
    destruct (write_fails (env i)); [discriminate |].
    destruct (findByIdAndUpdate (_id d) patch coll) as [res coll1].
    apply IH in H. rewrite length_app in H. cbn in *. lia.
Qed.

(** X8. When no write is rejected, a tick with at least one online driver
    emits, after the emergency alerts of the loop, exactly one drivers
    update with one entry per online driver, followed by the location
    updates of that listing; a tick without online drivers emits nothing. *)
Theorem tick_broadcasts_every_online_driver (sim : locationSimulator)
    (now : Z) (env : nat -> turn) (coll : list Driver) :
  (forall i, write_fails (env i) = false) ->
  (find_online coll = [] -> (simulation_tick sim now env coll).2 = [])
  /\ (find_online coll <> [] ->
      exists alerts data,
        (simulation_tick sim now env coll).2
        = alerts ++ DriversUpdate data now :: location_updates now data
        /\ length data = length (find_online coll)
        /\ forallb (fun e => negb (is_end_of_tick_broadcast e)) alerts = true).
Proof.
  intros Hok. unfold simulation_tick. split.
  - intros ->. reflexivity.
  - intros Hne.
    destruct (simulate_loop_prefix sim now env (find_online coll) [] 0 coll [] [])
      as (c & u & o & Hloop & _ & Hout); [intros j _; apply Hok | reflexivity |].
    rewrite Hloop.
    pose proof (simulate_loop_finished_length _ _ _ _ _ _ _ _ _ _ _ Hloop) as Hlen.
    cbn in Hlen. exists o, u.
    destruct u as [|x u]; [destruct (find_online coll); [done | discriminate] |].
    auto.
Qed.

(** With one driver online and one parked, the drivers update has one
    entry. *)
Lemma tick_broadcasts_the_en_route_driver :
  exists alerts data,
    (simulation_tick still_simulator 0
       (fun _ => {| draws := all_draws (1 # 2); write_fails := false |})
       [en_route_driver; parked_driver]).2
    = alerts ++ DriversUpdate data 0 :: location_updates 0 data
    /\ length data = 1%nat.
Proof.
  destruct (proj2 (tick_broadcasts_every_online_driver still_simulator 0
                     (fun _ => {| draws := all_draws (1 # 2);
                                  write_fails := false |})
                     [en_route_driver; parked_driver]
                     (fun _ => eq_refl))
              ltac:(discriminate))
    as (alerts & data & H1 & H2 & _).
  exists alerts, data. split; [| exact H2].
  exact H1.
Defined.

End SimulationBroadcastFacts.

(** ** More on the reports service *)
Section ReportsServiceFacts.
Import Js ReportsSocketService Samples.

Lemma accepts_is_object (data : value) (type : string) :
  accepts data type = true ->
  match data with VArr _ | VObj _ => True | _ => False end.
Proof.
  unfold accepts, isValidData. rewrite object_guard.
  destruct data; cbn; try discriminate; done.
Qed.

(** A field added by a spread leaves the other fields of an object or array
    readable as before. *)
Lemma get_spread_other (data : value) (k k' : string) (x : value) :
  match data with VArr _ | VObj _ => True | _ => False end ->
  k' <> k -> k' <> "length" ->
  get (spread_with data k x) k' = get data k'.
Proof.
  intros Hobj Hk Hlen. unfold spread_with.
  destruct data; try done; cbn [get].
  - apply String.eqb_neq in Hlen. rewrite Hlen.
    by rewrite lookup_insert_ne.
  - by rewrite lookup_insert_ne.
Qed.

Lemma accepts_earnings_spread (data x : value) :
  accepts data "earnings" = true ->
  accepts (spread_with data "timeRange" x) "earnings" = true.
Proof.
  intros H. pose proof (accepts_is_object _ _ H) as Hobj.
  rewrite accepts_earnings in *.
  rewrite !get_spread_other by done.
  destruct data; try done.
Qed.

Lemma broadcast_json_cache_valid ToNumber (k : cycle_kind) (q data : value)
    (st : service) :
  cache_valid st -> cache_valid (broadcast_json ToNumber k q data st).1.
Proof.
  intros Hst. unfold broadcast_json.
  destruct k.
  - destruct (accepts data "summary") eqn:Hv; cbn [andb]; [| exact Hst].
    destruct (_ || _); [| exact Hst].
    intros key v. cbn. rewrite lookup_insert. case_decide as Hk.
    + intros [= <-]. exists Summary. by subst.
    + apply Hst.
  - destruct (accepts data "earnings") eqn:Hv; cbn [andb]; [| exact Hst].
    destruct (truthy (get data "hasData")); [| exact Hst].
    intros key v. cbn. rewrite lookup_insert. case_decide as Hk.
    + intros [= <-]. exists Earnings. split; [by subst |].
      by apply accepts_earnings_spread.
    + apply Hst.
Qed.

Lemma step_cache_valid ToNumber (e : event) (s : system) :
  cache_valid (svc s) -> cache_valid (svc (step ToNumber e s).1).
Proof.
  intros Hs. destruct e; cbn.
  - exact Hs.
  - exact Hs.
  - unfold on_request. by destruct (map_get socket (connectedClients (svc s))).
  - unfold request_json. destruct (accepts data (type_of r)) eqn:Hv; cbn; [| exact Hs].
    intros key v. cbn. rewrite lookup_insert. case_decide as Hk.
    + intros [= <-]. exists r. by subst.
    + apply Hs.
  - exact Hs.
  - unfold periodic, call_broadcast, broadcast_start.
    repeat case_match; simplify_eq/=; exact Hs.
  - unfold periodic, call_broadcast, broadcast_start.
    repeat case_match; simplify_eq/=; exact Hs.
  - unfold triggerReportsUpdate, call_broadcast, broadcast_start.
    repeat case_match; simplify_eq/=; exact Hs.
  - unfold call_broadcast, broadcast_start.
    repeat case_match; simplify_eq/=; exact Hs.
  - destruct (running s !! i) as [c|]; [| exact Hs].
    pose proof (broadcast_json_cache_valid ToNumber (kind c) (query c)) as Hj.
    destruct o; cbn.
    + specialize (Hj data (svc s) Hs).
      by destruct (broadcast_json ToNumber (kind c) (query c) data (svc s)).
    + exact Hs.
    + exact Hs.
    + exact Hs.
Qed.

(** X9. The cache holds validated data only: whatever the clients, the
    timers and the controller do, every value in [lastDataCache] is stored
    under the key of one of the four reports and passes [isValidData] for
    that report. *)
Theorem cache_holds_validated_data_only ToNumber (es : list event) :
  cache_valid (svc (run ToNumber es boot).1).
Proof.
  assert (H : forall s, cache_valid (svc s) ->
                        cache_valid (svc (run ToNumber es s).1)).
  { induction es as [|e es IH]; intros s Hs; [exact Hs |].
    cbn. pose proof (step_cache_valid ToNumber e s Hs) as H1.
    destruct (step ToNumber e s) as [s1 out1]. cbn in H1.
    specialize (IH s1 H1). by destruct (run ToNumber es s1). }
  apply H. intros k v Hk. cbn in Hk. by rewrite lookup_empty in Hk.
Qed.

End ReportsServiceFacts.

(** ** Broadcast cycles: what goes out, and when nothing goes out *)
Section ReportsBroadcastFacts.
Import Js ReportsSocketService Samples.

Lemma truthy_or_day (x : value) : truthy (or x (VStr "day")) = true.
Proof. unfold or. by destruct (truthy x) eqn:E. Qed.

Lemma broadcast_json_meaningful ToNumber (k : cycle_kind) (q data : value)
    (st : service) :
  Forall (meaningful ToNumber) (broadcast_json ToNumber k q data st).2.
Proof.
  unfold broadcast_json. destruct k.
  - destruct (accepts data "summary") eqn:Hv; cbn [andb]; [| constructor].
    destruct (_ || _) eqn:Hm; [| constructor].
    constructor; [| constructor]. left. done.
  - destruct (accepts data "earnings") eqn:Hv; cbn [andb]; [| constructor].
    destruct (truthy (get data "hasData")) eqn:Hd; [| constructor].
    constructor; [| constructor]. right.
    pose proof (accepts_is_object _ _ Hv) as Hobj.
    split; [reflexivity |].
    split; [by apply accepts_earnings_spread |].
    split; [by rewrite get_spread_other |].
    unfold spread_with. cbn [get]. rewrite lookup_insert_eq. cbn.
    apply truthy_or_day.
Qed.

Lemma step_meaningful ToNumber (e : event) (s : system) :
  Forall (meaningful ToNumber) (step ToNumber e s).2.
Proof.
  destruct e; cbn.
  - unfold sendCachedDataToClient.
    repeat apply Forall_app_2; destruct (_ && _); by repeat constructor.
  - constructor.
  - unfold on_request.
    destruct (map_get socket (connectedClients (svc s))); by repeat constructor.
  - unfold request_json.
    repeat case_match; simplify_eq/=; by repeat constructor.
  - constructor.
  - unfold periodic, call_broadcast, broadcast_start.
    repeat case_match; simplify_eq/=; by repeat constructor.
  - unfold periodic, call_broadcast, broadcast_start.
    repeat case_match; simplify_eq/=; by repeat constructor.
  - unfold triggerReportsUpdate, call_broadcast, broadcast_start.
    repeat case_match; simplify_eq/=; by repeat constructor.
  - unfold call_broadcast, broadcast_start.
    repeat case_match; simplify_eq/=; by repeat constructor.
  - destruct (running s !! i) as [c|]; [| constructor].
    destruct o; cbn; try constructor.
    pose proof (broadcast_json_meaningful ToNumber (kind c) (query c) data (svc s)).
    by destruct (broadcast_json ToNumber (kind c) (query c) data (svc s)).
Qed.

(** X10. No empty broadcasts.  Whatever happens to the service, every
    payload it sends to all clients is a summary that passes validation and
    has a positive earnings or rides total, or an earnings report that
    passes validation, has [hasData] set and carries a time range. *)
Theorem every_broadcast_is_meaningful ToNumber (es : list event) (s : system) :
  Forall (meaningful ToNumber) (run ToNumber es s).2.
Proof.
  revert s. induction es as [|e es IH]; intros s; [constructor |].
  cbn. pose proof (step_meaningful ToNumber e s) as H1.
  destruct (step ToNumber e s) as [s1 out1]. specialize (IH s1).
  destruct (run ToNumber es s1) as [s2 out2]. cbn in *.
  by apply Forall_app_2.
Qed.

Lemma step_keeps_stuck_guard ToNumber (e : event) (s : system) :
  broadcastInProgress (svc s) = true -> running s = [] ->
  broadcastInProgress (svc (step ToNumber e s).1) = true
  /\ running (step ToNumber e s).1 = []
  /\ forallb (fun x => negb (is_broadcast x)) (step ToNumber e s).2 = true.
Proof.
  intros Hflag Hrun. destruct e; cbn.
  - split; [exact Hflag |]. split; [exact Hrun |].
    unfold sendCachedDataToClient. rewrite !forallb_app.
    repeat case_match; reflexivity.
  - done.
  - unfold on_request.
    destruct (map_get socket (connectedClients (svc s))); cbn; done.
  - unfold request_json. repeat case_match; simplify_eq/=; done.
  - done.
  - unfold periodic. rewrite Hflag, andb_false_r. done.
  - unfold periodic. rewrite Hflag, andb_false_r. done.
  - unfold triggerReportsUpdate. rewrite Hflag. done.
  - destruct (timers s); [done |].
    unfold call_broadcast, broadcast_start. cbn. rewrite Hflag, orb_true_r. done.
  - rewrite Hrun, lookup_nil. done.
Qed.

(** X11. The guard is released only by an answer.  When the controller call
    of a cycle ends with an answer or an exception the guard is cleared; when
    it returns without answering, the guard stays set for good: from then on
    no event starts a cycle and nothing is ever broadcast again. *)
Theorem guard_is_released_only_by_an_answer ToNumber (s : system) :
  (forall i c o,
      running s !! i = Some c -> o <> NoAnswer ->
      broadcastInProgress (svc (step ToNumber (ControllerReturns i o) s).1) = false)
  /\ (broadcastInProgress (svc s) = true -> running s = [] ->
      forall es,
        broadcastInProgress (svc (run ToNumber es s).1) = true
        /\ running (run ToNumber es s).1 = []
        /\ forallb (fun x => negb (is_broadcast x)) (run ToNumber es s).2 = true).
Proof.
  split.
  - intros i c o Hc Ho. cbn. rewrite Hc.
    destruct o; try done; cbn.
    unfold broadcast_json. repeat case_match; simplify_eq/=; reflexivity.
  - intros Hflag Hrun es. revert s Hflag Hrun.
    induction es as [|e es IH]; intros s Hflag Hrun; [done |].
    cbn. destruct (step_keeps_stuck_guard ToNumber e s Hflag Hrun)
      as (H1 & H2 & H3).
    destruct (step ToNumber e s) as [s1 out1]. cbn in H1, H2, H3.
    destruct (IH s1 H1 H2) as (H4 & H5 & H6).
    destruct (run ToNumber es s1) as [s2 out2]. cbn in *.
    rewrite forallb_app, H3, H6. done.
Qed.

(** After a cycle that got no answer, a periodic tick and an explicit
    trigger broadcast nothing. *)
Lemma guard_stuck_after_unanswered_cycle :
  broadcastInProgress (svc unanswered_service) = true
  /\ forallb (fun x => negb (is_broadcast x))
             (run (fun _ => None) [PeriodicSummary; TriggerReportsUpdate]
                  unanswered_service).2 = true.
Proof.
  split; [reflexivity |].
  exact (proj2 (proj2 (proj2 (guard_is_released_only_by_an_answer
                                (fun _ => None) unanswered_service)
                             eq_refl eq_refl
                             [PeriodicSummary; TriggerReportsUpdate]))).
Defined.

(** X12. The filters of a broadcast are those of the first client that has
    any: clients without filters before it are passed over, and when no
    client has filters the cycle falls back to the empty filter. *)
Theorem pick_filters_takes_first_nonempty (before after : list (string * client))
    (id : string) (c : client) :
  Forall (fun p => no_filters p.2 = true) before ->
  (no_filters c = false ->
   pick_filters (before ++ (id, c) :: after) = filters c)
  /\ pick_filters before = VObj ∅.
Proof.
  intros Hb. induction Hb as [|[id' c'] before Hc' Hb IH]; cbn.
  - split; [| reflexivity]. unfold no_filters. intros Hc.
    apply negb_false_iff in Hc. by rewrite Hc.
  - unfold no_filters in Hc'. cbn in Hc'. apply negb_true_iff in Hc'.
    rewrite Hc'. exact IH.
Qed.

Lemma pick_filters_skips_plain_client :
  pick_filters [("a", plain_client); ("b", weekly_client); ("c", plain_client)]
  = VObj {[ "timeRange" := VStr "week" ]}.
Proof.
  apply (proj1 (pick_filters_takes_first_nonempty
                  [("a", plain_client)] [("c", plain_client)] "b" weekly_client
                  ltac:(repeat constructor))).
  reflexivity.
Defined.

End ReportsBroadcastFacts.

(** ** Clients of the reports service *)
Section ReportsClientFacts.
Import Js ReportsSocketService Samples.

Lemma map_get_absent (socket : string) (cs : list (string * client)) :
  socket ∉ cs.*1 -> map_get socket cs = None.
Proof.
  induction cs as [|[id c] cs IH]; [done |]. cbn. intros Hnot.
  apply not_elem_of_cons in Hnot as [Hne Hnot].
  destruct (String.eqb_spec id socket); [congruence | by apply IH].
Qed.

Lemma map_get_after_cleanup (socket : string) (c : client) (now : Z)
    (cs : list (string * client)) :
  NoDup cs.*1 -> map_get socket cs = Some c ->
  30 * 60 * 1000 < now - lastActivity c ->
  map_get socket
    (filter (fun p => negb (30 * 60 * 1000 <? now - lastActivity (snd p))) cs)
  = None.
Proof.
  intros Hnd Hget Hold. apply map_get_absent.
  induction cs as [|[id c'] cs IH]; [by apply not_elem_of_nil |].
  cbn in Hget. apply NoDup_cons in Hnd as [Hid Hnd].
  destruct (String.eqb_spec id socket) as [-> | Hne].
  - injection Hget as ->. rewrite filter_cons_False.
    + intros Hin. apply Hid. apply list_elem_of_fmap in Hin as [[k v] [-> Hin]].
      apply list_elem_of_filter in Hin as [_ Hin].
      apply list_elem_of_fmap. by exists (k, v).
    + cbn [snd].
      destruct (Z.ltb_spec (30 * 60 * 1000) (now - lastActivity c));
        [by intros [] | lia].
  - rewrite filter_cons. destruct (decide _); [| by apply IH].
    cbn. apply not_elem_of_cons. split; [congruence | by apply IH].
Qed.

(** X13. An idle client is dropped and then refused.  A client whose last
    activity is more than 30 minutes old is removed by the cleanup although
    its socket stays connected; its next request of any report reaches no
    controller, changes nothing and is answered with [reportError] only. *)
Theorem idle_client_is_dropped_and_refused (r : report) (socket : string)
    (c : client) (params : value) (now now' : Z) (st : service) :
  NoDup (connectedClients st).*1 ->
  map_get socket (connectedClients st) = Some c ->
  30 * 60 * 1000 < now - lastActivity c ->
  let st' := cleanupInactiveConnections now st in
  exists message,
    on_request r socket params now' st'
    = (st', [SocketEmit socket "reportError"
               (VObj {[ "message" := VStr message ]})]).
Proof.
  intros Hnd Hget Hold. cbn zeta. unfold on_request.
  cbn [connectedClients cleanupInactiveConnections set_clients].
  rewrite (map_get_after_cleanup socket c now _ Hnd Hget Hold).
  eexists. reflexivity.
Qed.

Lemma idle_client_is_refused_after_an_hour :
  let st := (on_connection "c1" 0 constructor).1 in
  exists message,
    on_request Earnings "c1" (VObj ∅) 3600001
               (cleanupInactiveConnections 3600000 st)
    = (cleanupInactiveConnections 3600000 st,
       [SocketEmit "c1" "reportError" (VObj {[ "message" := VStr message ]})]).
Proof.
  apply (idle_client_is_dropped_and_refused Earnings "c1"
           {| filters := VObj ∅; lastActivity := 0 |} (VObj ∅) 3600000 3600001
           (on_connection "c1" 0 constructor).1).
  - cbn. apply NoDup_singleton.
  - reflexivity.
  - reflexivity.
Defined.

(** X14. What is cached for a client is replayed to the next one, except the
    rides analysis.  A valid answer to a summary, earnings or driver
    performance request is sent to the next client that connects; nothing
    cached is ever replayed under the rides analysis event. *)
Theorem answered_report_is_replayed_on_connection (r : report)
    (socket socket' : string) (data : value) (now : Z) (st : service) :
  accepts data (type_of r) = true ->
  (r <> Rides ->
   SocketEmit socket' (data_event r) data
   ∈ (on_connection socket' now (request_json r socket data st).1).2)
  /\ (forall p,
        SocketEmit socket' "ridesAnalysisData" p
        ∉ (on_connection socket' now (request_json r socket data st).1).2).
Proof.
  intros Hv. pose proof (accepts_is_object _ _ Hv) as Hobj.
  assert (Ht : truthy data = true) by (by destruct data).
  split.
  - intros Hr. unfold request_json. rewrite Hv. cbn.
    unfold sendCachedDataToClient, cache_get. cbn.
    destruct r; try done; cbn in Hv;
      rewrite ?lookup_insert_eq; cbn; rewrite ?Ht, ?Hv; cbn;
      rewrite ?elem_of_app, ?elem_of_cons; auto.
  - intros p. cbn. unfold sendCachedDataToClient.
    rewrite !elem_of_app.
    repeat case_match; rewrite ?elem_of_cons, ?elem_of_nil;
      intros Hin; repeat (destruct Hin as [Hin | Hin]); try done;
      discriminate.
Qed.

Lemma answered_summary_is_replayed :
  SocketEmit "s2" "reportsSummaryData" zero_summary
  ∈ (on_connection "s2" 5
       (request_json Summary "s1" zero_summary constructor).1).2.
Proof.
  exact (proj1 (answered_report_is_replayed_on_connection
                  Summary "s1" "s2" zero_summary 5 constructor eq_refl)
               ltac:(discriminate)).
Defined.

End ReportsClientFacts.

(** ** Rounding and chart rows *)
Section ReportsRowsFacts.
Import Js ReportsHelper ReportsHelperRows Samples.

Lemma Qfloor_half (z : Z) : Qfloor (inject_Z z + (1 # 2)) = z.
Proof.
  pose proof (Qfloor_le (inject_Z z + (1 # 2))) as Hle.
  pose proof (Qlt_floor (inject_Z z + (1 # 2))) as Hlt.
  rewrite inject_Z_plus in Hlt. change (inject_Z 1) with 1%Q in Hlt.
  assert (H1 : (inject_Z (Qfloor (inject_Z z + (1 # 2))) < inject_Z (z + 1))%Q).
  { rewrite inject_Z_plus. change (inject_Z 1) with 1%Q. lra. }
  assert (H2 : (inject_Z z < inject_Z (Qfloor (inject_Z z + (1 # 2)) + 1))%Q).
  { rewrite inject_Z_plus. change (inject_Z 1) with 1%Q. lra. }
  rewrite <- Zlt_Qlt in H1, H2. lia.
Qed.


Lemma find_none_when_no_match {A} (f : A -> bool) (l : list A) :
  (forall x, x ∈ l -> f x = false) -> List.find f l = None.
Proof.
  induction l as [|x l IH]; intros H; [reflexivity |]. cbn.
  rewrite (H x) by apply list_elem_of_here.
  apply IH. intros y Hy. apply H. by apply elem_of_cons; right.
Qed.

(** X16. [fillMissingDataPoints] gives one row per date point, in order.  A
    point that no data item matches gets the default for all three metrics
    under the point's label; a matched point takes each metric from the
    first matching item, or the default when the item's value is missing or
    falsy (zero included), and keeps the item's other fields. *)
Theorem fillMissingDataPoints_fills_every_point
    (data : list (gmap string value)) (dateRange : list datePoint)
    (defaultValue : value) :
  let rows := fillMissingDataPoints data dateRange defaultValue in
  length rows = length dateRange
  /\ (forall i p,
        dateRange !! i = Some p ->
        (forall item, item ∈ data -> has_id (key p) item = false) ->
        rows !! i
        = Some (<["cancellations" := defaultValue]>
                  (<["rides" := defaultValue]>
                     (<["earnings" := defaultValue]>
                        {[ "name" := VStr (label p) ]}))))
  /\ (forall i p item,
        dateRange !! i = Some p ->
        List.find (has_id (key p)) data = Some item ->
        exists row,
          rows !! i = Some row
          /\ row !! "earnings"
             = Some (or (default VUndefined (item !! "totalEarnings")) defaultValue)
          /\ row !! "rides"
             = Some (or (default VUndefined (item !! "totalRides")) defaultValue)
          /\ row !! "cancellations"
             = Some (or (default VUndefined (item !! "cancelledRides")) defaultValue)
          /\ row !! "_id" = Some (VStr (key p))
          /\ (forall k v, item !! k = Some v ->
                          k <> "earnings" -> k <> "rides" -> k <> "cancellations" ->
                          row !! k = Some v)).
Proof.
  cbn zeta. unfold fillMissingDataPoints.
  split; [apply length_map |]. split.
  - intros i p Hp Hnone.
    change (map ?f ?l) with (f <$> l).
    rewrite list_lookup_fmap, Hp. cbn. unfold fill_row.
    rewrite (find_none_when_no_match _ _ Hnone). cbn.
    rewrite (left_id_L ∅ (∪)). reflexivity.
  - intros i p item Hp Hfind.
    change (map ?f ?l) with (f <$> l).
    rewrite list_lookup_fmap, Hp. cbn. unfold fill_row. rewrite Hfind. cbn.
    eexists. split; [reflexivity |].
    pose proof (find_some _ _ Hfind) as [_ Hid].
    unfold has_id in Hid.
    destruct (item !! "_id") as [[| | | | |s| |]|] eqn:Eid; try discriminate.
    apply String.eqb_eq in Hid. subst s.
    split; [by rewrite lookup_insert_ne, lookup_insert_ne, lookup_insert_eq |].
    split; [by rewrite lookup_insert_ne, lookup_insert_eq |].
    split; [by rewrite lookup_insert_eq |].
    split.
    + rewrite !lookup_insert_ne by done.
      apply lookup_union_Some_l. exact Eid.
    + intros k v Hk H1 H2 H3. rewrite !lookup_insert_ne by done.
      by apply lookup_union_Some_l.
Qed.

(** A day without data gets the default in all three metrics. *)
Lemma fillMissingDataPoints_fills_day_without_data :
  fillMissingDataPoints
    [ {[ "_id" := VStr "mon"; "totalRides" := VNum 3 ]} ]
    [ {| key := "mon"; label := "Mon"; date := 0 |};
      {| key := "tue"; label := "Tue"; date := 86400000 |} ]
    (VNum 0) !! 1%nat
  = Some (<["cancellations" := VNum 0]>
            (<["rides" := VNum 0]>
               (<["earnings" := VNum 0]> {[ "name" := VStr "Tue" ]}))).
Proof.
  apply (proj1 (proj2 (fillMissingDataPoints_fills_every_point
                         [ {[ "_id" := VStr "mon"; "totalRides" := VNum 3 ]} ]
                         [ {| key := "mon"; label := "Mon"; date := 0 |};
                           {| key := "tue"; label := "Tue"; date := 86400000 |} ]
                         (VNum 0)))
           1%nat {| key := "tue"; label := "Tue"; date := 86400000 |} eq_refl).
  intros item Hin. apply list_elem_of_singleton in Hin as ->. reflexivity.
Defined.

End ReportsRowsFacts.

(** ** Aggregation by service *)
Section AggregateFacts.
Import ReportsHelperRows Samples.

Lemma lookup_service_None (n : string) (m : list (string * tally)) :
  lookup_service n m = None <-> n ∉ m.*1.
Proof.
  induction m as [|[k t] m IH]; cbn.
  - split; [intros _; apply not_elem_of_nil | done].
  - rewrite not_elem_of_cons. destruct (String.eqb_spec k n) as [-> | Hne].
    + split; [discriminate | intros [H _]; done].
    + rewrite IH. split; [intros H; split; [congruence | done] | by intros [_ H]].
Qed.

Lemma lookup_service_elem (n : string) (t : tally) (m : list (string * tally)) :
  NoDup m.*1 -> (n, t) ∈ m -> lookup_service n m = Some t.
Proof.
  induction m as [|[k t'] m IH]; intros Hnd Hin; [by apply elem_of_nil in Hin |].
  cbn in Hnd. apply NoDup_cons in Hnd as [Hk Hnd]. cbn.
  apply elem_of_cons in Hin as [[= <- <-] | Hin].
  - by rewrite String.eqb_refl.
  - destruct (String.eqb_spec k n) as [-> | Hne]; [| by apply IH].
    destruct Hk. apply list_elem_of_fmap. by exists (n, t).
Qed.

Lemma lookup_service_Some_elem (n : string) (t : tally)
    (m : list (string * tally)) :
  lookup_service n m = Some t -> (n, t) ∈ m.
Proof.
  induction m as [|[k t'] m IH]; [done |]. cbn.
  destruct (String.eqb_spec k n) as [-> | Hne].
  - intros [= ->]. apply list_elem_of_here.
  - intros H. apply elem_of_cons; right. by apply IH.
Qed.

Lemma update_service_keys (k : string) (f : tally -> tally)
    (m : list (string * tally)) :
  (update_service k f m).*1 = m.*1.
Proof.
  induction m as [|[n t] m IH]; [reflexivity |]. cbn.
  destruct (String.eqb n k); cbn; [reflexivity | by rewrite IH].
Qed.

Lemma lookup_update_service (n k : string) (f : tally -> tally)
    (m : list (string * tally)) :
  lookup_service n (update_service k f m)
  = if String.eqb k n then f <$> lookup_service n m else lookup_service n m.
Proof.
  induction m as [|[k' t] m IH]; cbn; [by destruct (String.eqb k n) |].
  destruct (String.eqb_spec k' k) as [-> | Hk]; cbn.
  - destruct (String.eqb_spec k n) as [-> | Hn]; reflexivity.
  - destruct (String.eqb_spec k' n) as [-> | Hn].
    + destruct (String.eqb_spec k n); [congruence | reflexivity].
    + exact IH.
Qed.

Lemma lookup_service_app (n k : string) (t : tally) (m : list (string * tally)) :
  lookup_service n (m ++ [(k, t)])
  = match lookup_service n m with
    | Some x => Some x
    | None => if String.eqb k n then Some t else None
    end.
Proof.
  induction m as [|[k' t'] m IH]; cbn; [reflexivity |].
  by destruct (String.eqb k' n).
Qed.

(** What a ride does to the entry of the service [n]. *)
Lemma lookup_add_ride (n : string) (m : list (string * tally)) (r : ride) :
  lookup_service n (add_ride m r)
  = if inherited (service r) then lookup_service n m
    else if String.eqb (service r) n
         then Some (count_ride r
                      (default {| count := 0; earnings := 0; completedRides := 0 |}
                               (lookup_service n m)))
         else lookup_service n m.
Proof.
  unfold add_ride. destruct (inherited (service r)); [reflexivity |].
  rewrite lookup_update_service.
  destruct (String.eqb_spec (service r) n) as [<- | Hne].
  - destruct (lookup_service (service r) m) as [t|] eqn:E; [by rewrite E |].
    rewrite lookup_service_app, E, String.eqb_refl. reflexivity.
  - destruct (lookup_service (service r) m); [reflexivity |].
    rewrite lookup_service_app.
    destruct (lookup_service n m); [reflexivity |].
    by destruct (String.eqb_spec (service r) n).
Qed.

Lemma add_ride_NoDup (m : list (string * tally)) (r : ride) :
  NoDup m.*1 -> NoDup (add_ride m r).*1.
Proof.
  intros Hnd. unfold add_ride. destruct (inherited (service r)); [exact Hnd |].
  rewrite update_service_keys.
  destruct (lookup_service (service r) m) eqn:E; [exact Hnd |].
  rewrite fmap_app. cbn. apply NoDup_app. split; [exact Hnd |].
  split; [| apply NoDup_singleton].
  intros x Hx Hx'. apply list_elem_of_singleton in Hx'. subst x.
  by apply lookup_service_None in E.
Qed.

Lemma fold_add_ride_NoDup (rides : list ride) (m : list (string * tally)) :
  NoDup m.*1 -> NoDup (fold_left add_ride rides m).*1.
Proof.
  revert m. induction rides as [|r rides IH]; intros m Hm; [exact Hm |].
  cbn. apply IH. by apply add_ride_NoDup.
Qed.

(** The tally of some rides, added to [t]. *)
Lemma count_rides_fields (l : list ride) :
  forall t,
    let t' := fold_left (fun acc r => count_ride r acc) l t in
    let done_ := List.filter (fun r => String.eqb (status r) "completed") l in
    count t' = count t + Z.of_nat (length l)
    /\ completedRides t' = completedRides t + Z.of_nat (length done_)
    /\ earnings t' = fold_left Qplus (amount <$> done_) (earnings t).
Proof.
  induction l as [|r l IH]; intros t; cbn zeta.
  - cbn. repeat split; lia.
  - cbn [fold_left List.filter]. destruct (IH (count_ride r t)) as (H1 & H2 & H3).
    rewrite H1, H2, H3. unfold count_ride.
    destruct (String.eqb (status r) "completed"); cbn; repeat split; lia.
Qed.

(** The entry of a service after all rides: none if no ride names it, else
    the tally of the rides that do. *)
Lemma fold_add_ride_lookup (n : string) (rides : list ride) :
  inherited n = false ->
  forall m,
    lookup_service n (fold_left add_ride rides m)
    = match List.filter (fun r => String.eqb (service r) n) rides with
      | [] => lookup_service n m
      | mine =>
          Some (fold_left (fun acc r => count_ride r acc) mine
                  (default {| count := 0; earnings := 0; completedRides := 0 |}
                           (lookup_service n m)))
      end.
Proof.
  intros Hn. induction rides as [|r rides IH]; intros m; [reflexivity |].
  cbn [fold_left List.filter]. rewrite IH, lookup_add_ride.
  destruct (String.eqb_spec (service r) n) as [Hr | Hr].
  - rewrite Hr, Hn. cbn [default fold_left].
    by destruct (List.filter (fun r0 => String.eqb (service r0) n) rides).
  - destruct (inherited (service r)); reflexivity.
Qed.

Lemma insert_index_perm {V} (x : N * (string * V)) (l : list (N * (string * V))) :
  insert_index x l ≡ₚ x :: l.
Proof.
  induction l as [|y l IH]; cbn; [reflexivity |].
  destruct (x.1 <? y.1)%N; [reflexivity |].
  rewrite IH. apply Permutation_swap.
Qed.

Lemma Object_entries_perm {V} (o : list (string * V)) :
  Object_entries o ≡ₚ o.
Proof.
  unfold Object_entries.
  assert (Hsort : forall l : list (N * (string * V)),
             foldr insert_index [] l ≡ₚ l).
  { induction l as [|x l IH]; cbn; [reflexivity |].
    by rewrite insert_index_perm, IH. }
  change (map snd ?l) with (snd <$> l). rewrite Hsort.
  induction o as [|e o IH]; [reflexivity |].
  cbn [omap list_omap]. rewrite filter_cons.
  destruct (array_index e.1) as [n|] eqn:E; cbn.
  - destruct (decide _) as [Hd | Hd]; [by destruct Hd |].
    by rewrite IH.
  - destruct (decide _) as [Hd | Hd]; [| by destruct Hd].
    rewrite <- Permutation_middle. by rewrite IH.
Qed.

Lemma add_ride_own_keys (m : list (string * tally)) (r : ride) :
  Forall (fun n => inherited n = false) m.*1 ->
  Forall (fun n => inherited n = false) (add_ride m r).*1.
Proof.
  intros Hm. unfold add_ride. destruct (inherited (service r)) eqn:Ei; [exact Hm |].
  rewrite update_service_keys.
  destruct (lookup_service (service r) m); [exact Hm |].
  rewrite fmap_app. apply Forall_app. split; [exact Hm |]. by repeat constructor.
Qed.

Lemma fold_add_ride_own_keys (rides : list ride) (m : list (string * tally)) :
  Forall (fun n => inherited n = false) m.*1 ->
  Forall (fun n => inherited n = false) (fold_left add_ride rides m).*1.
Proof.
  revert m. induction rides as [|r rides IH]; intros m Hm; [exact Hm |].
  cbn. apply IH. by apply add_ride_own_keys.
Qed.



End AggregateFacts.

(** ** Percentages *)
Section PercentageFacts.
Import ReportsHelper.



End PercentageFacts.

(** ** What a socket gets when it joins a room of server.js *)
Section JoinRoomFacts.
Import Js Server.



End JoinRoomFacts.

(** ** Emergencies in the simulation *)
Section EmergencyFacts.
Import Simulation Samples.

(** X20. An iteration raises at most one emergency alert.  The update it
    writes after an alert has status "emergency" unless the resolution draw
    of the same iteration is below 0.2, in which case the alert has gone
    out and the stored status is "active".  Without an alert the written
    status is "emergency" only for a driver that was in an emergency and
    whose resolution draw is not below 0.2. *)
Theorem alert_is_stored_unless_resolved_at_once (sim : locationSimulator)
    (now : Z) (r : Draws) (d : Driver) :
  let p := (simulate_driver sim now r d).1 in
  let alerts := (simulate_driver sim now r d).2 in
  (length alerts <= 1)%nat
  /\ (alerts <> [] ->
      p_status p = if below (r_resolve r) (2 # 10) then "active" else "emergency")
  /\ (alerts = [] -> p_status p = "emergency" ->
      status d = "emergency" /\ below (r_resolve r) (2 # 10) = false).
Proof.
  cbn zeta. unfold simulate_driver.
  destruct (simulate_motion sim r d) as [[loc spd] bat].
  assert (Hst : status (trip_assignment sim now r spd (trip_progress r d)).1
                = "emergency" -> status d = "emergency").
  { unfold trip_assignment, trip_progress.
    repeat case_match; simplify_eq/=; try done;
      repeat match goal with
             | H : _ && _ = true |- _ => apply andb_true_iff in H as [? ?]
             | H : String.eqb _ _ = true |- _ => apply String.eqb_eq in H
             end; cbn in *; congruence. }
  destruct (trip_assignment sim now r spd (trip_progress r d)) as [d1 e1].
  cbn [fst] in Hst.
  unfold emergency_injection, emergency_resolution, with_status.
  destruct (String.eqb (status d1) "active") eqn:Ea;
    destruct (below (r_emergency r) (5 # 1000)) eqn:Ee; cbn [andb fst snd status];
    destruct (below (r_resolve r) (2 # 10)) eqn:Er; cbn;
    rewrite ?andb_true_r, ?andb_false_r;
    try (destruct (String.eqb (status d1) "emergency") eqn:Es; cbn);
    repeat split; try lia; try done; try congruence; intros;
    try (apply String.eqb_eq in Es);
    try (apply String.eqb_eq in Ea); try congruence; auto;
    match goal with
    | H : status d1 = "emergency",
      E : String.eqb (status d1) "emergency" = false |- _ =>
        rewrite H in E; discriminate
    end.
Qed.

(** An emergency raised and resolved in the same iteration. *)
Lemma alert_raised_and_resolved_at_once :
  let p := (simulate_driver still_simulator 0 (all_draws 0) en_route_driver).1 in
  p_status p = "active".
Proof.
  cbn zeta.
  apply (proj1 (proj2 (alert_is_stored_unless_resolved_at_once still_simulator 0
                         (all_draws 0) en_route_driver))).
  discriminate.
Defined.

End EmergencyFacts.

(** ** The dashboard statistics of socket.js *)
Section SocketDashboardFacts.
Import Js SocketDashboard.

Lemma validateStatsData_is_object ToNumber (stats : value) :
  validateStatsData ToNumber stats = true ->
  match stats with VArr _ | VObj _ => True | _ => False end.
Proof.
  unfold validateStatsData.
  destruct stats; cbn; rewrite ?orb_true_r; try discriminate; done.
Qed.

(** The stamp that [getDashboardStats] adds does not disturb the
    validation. *)
Lemma validateStatsData_spread ToNumber (stats x : value) :
  validateStatsData ToNumber stats = true ->
  validateStatsData ToNumber (spread_with stats "timestamp" x) = true.
Proof.
  intros H. pose proof (validateStatsData_is_object _ _ H) as Hobj.
  unfold validateStatsData, has_count in *.
  rewrite !get_spread_other by done.
  destruct stats; try done; exact H.
Qed.

(** X21. The periodic dashboard update is sent exactly when the controller
    answered, through [res.json] or [res.status(code).json], with data that
    [validateStatsData] accepts; what goes to the "dashboard" room is that
    data with the time stamp, and the second validation in
    [sendDashboardUpdates] never rejects it.  A missing controller, a call
    that does not answer or throws, and rejected data send nothing.  The
    initial data of a socket is sent in the same cases with the same
    payload. *)
Theorem dashboard_stats_sent_for_validated_answers ToNumber
    (timestamp : string) (c : controller_result) :
  sendDashboardUpdates ToNumber timestamp c
  = match c with
    | Json statsData | StatusJson statsData =>
        if validateStatsData ToNumber statsData
        then [Server.RoomEmit "dashboard" "dashboardStats"
                (spread_with statsData "timestamp" (VStr timestamp))]
        else []
    | Missing | NoAnswer | Throws => []
    end
  /\ sendInitialDashboardData ToNumber timestamp c
     = (fun e => ("dashboardStats", Server.delivered e))
         <$> sendDashboardUpdates ToNumber timestamp c.
Proof.
  unfold sendDashboardUpdates, sendInitialDashboardData, getDashboardStats.
  destruct c as [|d|d| |]; try (split; reflexivity);
    destruct (validateStatsData ToNumber d) eqn:E; try (split; reflexivity);
    rewrite (validateStatsData_spread _ _ _ E); split; reflexivity.
Qed.

End SocketDashboardFacts.

(** ** The client sets of socket.js *)
Section SocketClientFacts.
Import SocketDashboard.
#[local] Set Warnings "-clear-no-such-hyp".

Lemma step_sets_within_all (e : event) (c : clients) :
  Forall (fun s => s ⊆ all c) (client_sets c) ->
  Forall (fun s => s ⊆ all (step e c)) (client_sets (step e c)).
Proof.
  unfold client_sets. rewrite !Forall_cons, !Forall_nil.
  intros (H1 & H2 & H3 & H4 & H5 & H6 & H7 & _).
  destruct e as [socket | socket room | socket]; cbn.
  - repeat apply conj; try done; set_solver.
  - case_bool_decide; [| done]. unfold on_join_room.
    repeat case_match; cbn; repeat apply conj; try done; set_solver.
  - repeat apply conj; try done; set_solver.
Qed.

Lemma run_sets_within_all (es : list event) (c : clients) :
  Forall (fun s => s ⊆ all c) (client_sets c) ->
  Forall (fun s => s ⊆ all (run es c)) (client_sets (run es c)).
Proof.
  revert c. induction es as [|e es IH]; intros c H; [exact H |].
  apply IH, step_sets_within_all, H.
Qed.

Lemma step_keeps_socket_out (socket : string) (e : event) (c : clients) :
  e <> Connect socket -> socket ∉ all c -> socket ∉ all (step e c).
Proof.
  intros He Hc. destruct e as [s | s room | s]; cbn.
  - assert (s <> socket) by congruence. set_solver.
  - case_bool_decide; [| done]. unfold on_join_room.
    repeat case_match; exact Hc.
  - set_solver.
Qed.

(** X22. Every set of [clients] holds connected sockets only, and a socket
    that has disconnected is in none of the sets, whatever rooms it had
    joined and whatever other sockets do afterwards, until it connects
    again. *)
Theorem disconnected_socket_is_in_no_set (socket : string)
    (es es' : list event) :
  Forall (fun e => e <> Connect socket) es' ->
  let c := run (es ++ Disconnect socket :: es') no_clients in
  Forall (fun s => s ⊆ all c) (client_sets c)
  /\ Forall (fun s => socket ∉ s) (client_sets c).
Proof.
  intros Hes'. cbn zeta.
  assert (Hall : Forall (fun s => s ⊆ all (run (es ++ Disconnect socket :: es')
                                               no_clients))
                   (client_sets (run (es ++ Disconnect socket :: es') no_clients))).
  { apply run_sets_within_all. unfold client_sets. cbn.
    repeat apply Forall_cons_2; try apply Forall_nil_2; done. }
  split; [exact Hall |].
  assert (Hout : socket ∉ all (run (es ++ Disconnect socket :: es') no_clients)).
  { clear Hall. unfold run. rewrite fold_left_app. cbn [fold_left].
    fold (run es no_clients).
    generalize (run es no_clients). intros c0.
    assert (H0 : socket ∉ all (step (Disconnect socket) c0)) by (cbn; set_solver).
    revert H0. generalize (step (Disconnect socket) c0). clear c0.
    induction Hes' as [|e es' He _ IH]; intros c Hc; [exact Hc |].
    cbn [fold_left]. apply IH, step_keeps_socket_out; assumption. }
  eapply Forall_impl; [exact Hall |]. cbn. set_solver.
Qed.

(** A socket joins two rooms and leaves while another one stays. *)
Lemma disconnected_socket_is_in_no_set_after_joins :
  Forall (fun s => "a" ∉ s)
    (client_sets
       (run [Connect "a"; JoinRoom "a" "rides"; Connect "b";
             JoinRoom "a" "vehicles"; Disconnect "a"; JoinRoom "b" "rides"]
            no_clients)).
Proof.
  apply (proj2 (disconnected_socket_is_in_no_set "a"
                  [Connect "a"; JoinRoom "a" "rides"; Connect "b";
                   JoinRoom "a" "vehicles"]
                  [JoinRoom "b" "rides"]
                  ltac:(repeat constructor; discriminate))).
Defined.

End SocketClientFacts.

(** ** The connection registry of server.js *)
Section ServerRegistryFacts.
Import Server ServerRegistry.

Lemma existsb_eqb_elem (x : string) (l : list string) :
  existsb (String.eqb x) l = false -> x ∉ l.
Proof.
  intros H Hin. apply list_elem_of_In in Hin.
  assert (Ht : existsb (String.eqb x) l = true)
    by (apply existsb_exists; exists x; split; [exact Hin | apply String.eqb_refl]).
  congruence.
Qed.

Lemma step_rooms_listed_once (db : backend) (timestamp : string) (e : event)
    (clients : gmap string clientInfo) :
  map_Forall (fun _ c => NoDup (rooms c)) clients ->
  map_Forall (fun _ c => NoDup (rooms c)) (step db timestamp e clients).
Proof.
  intros H. destruct e as [s now | s now | s room | s | now]; cbn.
  - apply map_Forall_insert_2; [constructor | exact H].
  - unfold touch. destruct (clients !! s) as [c|] eqn:E; [| exact H].
    apply map_Forall_insert_2; [exact (H s c E) | exact H].
  - destruct (clients !! s) as [c|] eqn:E; [| exact H].
    destruct (existsb (String.eqb room) (rooms c)) eqn:Er; [exact H |].
    apply map_Forall_insert_2; [| exact H]. cbn.
    apply NoDup_app. split; [exact (H s c E) |]. split.
    + intros x Hx Hx'. apply list_elem_of_singleton in Hx' as ->.
      by apply existsb_eqb_elem in Er.
    + apply NoDup_singleton.
  - by apply map_Forall_delete.
  - intros k c Hk. apply map_lookup_filter_Some in Hk as [Hk _]. exact (H k c Hk).
Qed.

(** X23. However sockets connect, send heartbeats, join rooms and leave,
    and whenever the cleanup runs, the registry lists no room twice for a
    client, and a second [join-room] for the same room leaves the registry
    as the first one made it. *)
Theorem registry_lists_each_room_once (db : backend) (timestamp : string)
    (es : list event) (socket room : string) :
  let clients := run db timestamp es ∅ in
  map_Forall (fun _ c => NoDup (rooms c)) clients
  /\ (let joined := (on_join_room db timestamp socket room clients).1 in
      (on_join_room db timestamp socket room joined).1 = joined
      /\ forall c, joined !! socket = Some c -> room ∈ rooms c).
Proof.
  cbn zeta. split.
  - unfold run. generalize (map_Forall_empty (M := gmap string)
                              (fun (_ : string) c => NoDup (rooms c))).
    generalize (∅ : gmap string clientInfo).
    induction es as [|e es IH]; intros clients H; [exact H |].
    cbn [fold_left]. apply IH, step_rooms_listed_once, H.
  - generalize (run db timestamp es ∅). intros clients.
    unfold on_join_room. cbn [fst].
    destruct (clients !! socket) as [c|] eqn:E.
    + destruct (existsb (String.eqb room) (rooms c)) eqn:Er.
      * rewrite E, Er. split; [reflexivity |].
        intros c' Hc'. replace c' with c by congruence.
        apply existsb_exists in Er as (x & Hx & Heq).
        apply String.eqb_eq in Heq. subst x. by apply list_elem_of_In.
      * rewrite lookup_insert_eq. cbn [rooms].
        assert (Hr : existsb (String.eqb room) (rooms c ++ [room]) = true).
        { rewrite existsb_app. cbn. rewrite String.eqb_refl.
          by rewrite orb_true_r. }
        rewrite Hr. split; [reflexivity |].
        intros c' [= <-]. cbn. apply elem_of_app. right. apply list_elem_of_here.
    + rewrite E. split; [reflexivity |]. intros c' Hc'. congruence.
Qed.

(** X24. A client that sends a heartbeat stays registered through the next
    cleanup exactly when the heartbeat is at most five minutes old; its
    rooms and connection time are kept, and the cleanup does not disconnect
    it.  With an older heartbeat it is dropped, and disconnected if the
    transport still knows the socket. *)
Theorem heartbeat_decides_cleanup (socket : string) (t now : Z)
    (live : gset string) (clients : gmap string clientInfo) (c : clientInfo) :
  clients !! socket = Some c ->
  let touched := touch socket t clients in
  (now - t <= 5 * 60 * 1000 ->
     sweep now touched !! socket
     = Some {| connectedAt := connectedAt c; rooms := rooms c; lastActivity := t |}
     /\ socket ∉ sweep_disconnects now live touched)
  /\ (5 * 60 * 1000 < now - t ->
     sweep now touched !! socket = None
     /\ (socket ∈ live -> socket ∈ sweep_disconnects now live touched)).
Proof.
  intros Hc. cbn zeta. unfold touch. rewrite Hc.
  unfold sweep, sweep_disconnects, is_stale, stale_after. split; intros Ht.
  - split.
    + apply map_lookup_filter_Some. rewrite lookup_insert_eq. split; [reflexivity |].
      cbn. destruct (Z.ltb_spec (5 * 60 * 1000) (now - t)); [lia | done].
    + intros Hin. apply elem_of_intersection in Hin as [Hin _].
      apply elem_of_dom in Hin as [c' Hc'].
      apply map_lookup_filter_Some in Hc' as [Hl Hs].
      rewrite lookup_insert_eq in Hl. injection Hl as <-. cbn in Hs.
      destruct (Z.ltb_spec (5 * 60 * 1000) (now - t)); [lia | done].
  - assert (Hs : Is_true (5 * 60 * 1000 <? now - t))
      by (destruct (Z.ltb_spec (5 * 60 * 1000) (now - t)); [done | lia]).
    split.
    + apply map_lookup_filter_None. right. intros c' Hl.
      rewrite lookup_insert_eq in Hl. injection Hl as <-. cbn.
      revert Hs. generalize (5 * 60 * 1000 <? now - t).
      intros [] H; [cbn; tauto | destruct H].
    + intros Hlive. apply elem_of_intersection. split; [| exact Hlive].
      apply elem_of_dom. eexists. apply map_lookup_filter_Some.
      rewrite lookup_insert_eq. split; [reflexivity | exact Hs].
Qed.

(** A heartbeat four minutes before the cleanup keeps the client. *)
Lemma heartbeat_four_minutes_old_keeps_client :
  sweep 1000000 (touch "a" 760000 (on_connection "a" 0 ∅)) !! "a"
  = Some {| connectedAt := 0; rooms := []; lastActivity := 760000 |}.
Proof.
  apply (proj1 (proj1 (heartbeat_decides_cleanup "a" 760000 1000000 ∅
                         (on_connection "a" 0 ∅)
                         {| connectedAt := 0; rooms := []; lastActivity := 0 |}
                         ltac:(apply lookup_insert_eq))
                 ltac:(lia))).
Defined.

End ServerRegistryFacts.

(** ** Listings after a change of the store *)
Section ServerFeedsFacts.
Import Js Server ServerFeeds.

Lemma known_lower_name (m : model) : known_model (lower_name m) = true.
Proof. by destruct m. Qed.

(** X25. With both sets of watchers open, a change notification that
    carries a document key and reaches the "change" handler of each makes
    the server read the whole collection twice and emit the full listing
    twice, once from each handler; the handler of the reconnecting watcher
    asks for the dashboard statistics as well, except for the admins. *)
Theorem change_broadcasts_listing_twice (db : backend)
    (t1 t1' t2 t2' : string) (m : model) (c : change) (docs : list value) :
  find db (lower_name m) = inl docs ->
  non_null (documentKey c) = true ->
  let out := on_change db t1 t1' m c ++ on_direct_change db t2 t2' m c in
  let listing timestamp :=
    IoEmit (lower_name m +:+ "Update")
           (VObj (list_to_map [("success", VBool true); ("data", VArr docs);
                               ("timestamp", VStr timestamp)])) in
  List.filter (is_listing_of (lower_name m)) out = [listing t1'; listing t2']
  /\ List.filter (fun e => match e with StoreFind _ => true | _ => false end) out
     = [StoreFind (lower_name m); StoreFind (lower_name m)]
  /\ List.filter (fun e => match e with DashboardQuery => true | _ => false end) out
     = match m with Admins => [] | _ => [DashboardQuery] end.
Proof.
  intros Hfind Hkey. cbn zeta.
  unfold on_change, on_direct_change, sendModelUpdates, sendDashboardStats.
  rewrite Hkey, known_lower_name, Hfind.
  destruct m; cbn in *;
    destruct (getDashboardStats db) as [d|]; cbn;
    try destruct (truthy d); cbn; repeat split; reflexivity.
Qed.

(** An insert into the vehicles collection. *)
Lemma vehicle_insert_broadcasts_listing_twice :
  let db := {| find := fun _ => inl []; getDashboardStats := None |} in
  let c := {| operationType := "insert"; fullDocument := VObj ∅;
              documentKey := VObj {[ "_id" := VStr "v1" ]} |} in
  List.filter (fun e => match e with StoreFind _ => true | _ => false end)
    (on_change db "t1" "t2" Vehicles c ++ on_direct_change db "t3" "t4" Vehicles c)
  = [StoreFind "vehicles"; StoreFind "vehicles"].
Proof.
  cbn zeta.
  apply (proj1 (proj2 (change_broadcasts_listing_twice
                         {| find := fun _ => inl []; getDashboardStats := None |}
                         "t1" "t2" "t3" "t4" Vehicles
                         {| operationType := "insert"; fullDocument := VObj ∅;
                            documentKey := VObj {[ "_id" := VStr "v1" ]} |}
                         [] eq_refl eq_refl))).
Defined.

Lemma poll_last_le (db : backend) (timestamp modelName : string) (f : found)
    (last : Z) :
  (poll db timestamp modelName f last).1
  = match f with Document (Some stamp) => Z.max last stamp | _ => last end.
Proof.
  unfold poll. destruct f as [| |[stamp|]]; try reflexivity.
  destruct (Z.ltb_spec last stamp); cbn; lia.
Qed.

Lemma polls_last (db : backend) (timestamp modelName : string)
    (fs : list found) (last : Z) :
  (polls db timestamp modelName fs last).1 = fold_left Z.max (stamps fs) last.
Proof.
  revert last. induction fs as [|f fs IH]; intros last; [reflexivity |].
  cbn [polls].
  pose proof (poll_last_le db timestamp modelName f last) as Hp.
  destruct (poll db timestamp modelName f last) as [last1 out1].
  specialize (IH last1).
  destruct (polls db timestamp modelName fs last1) as [last2 out2].
  cbn [fst] in *. rewrite IH, Hp.
  destruct f as [| |[stamp|]]; reflexivity.
Qed.

Lemma fold_max_ge (l : list Z) (a : Z) :
  a <= fold_left Z.max l a /\ Forall (fun x => x <= fold_left Z.max l a) l.
Proof.
  revert a. induction l as [|x l IH]; intros a; cbn; [split; [lia | constructor] |].
  destruct (IH (Z.max a x)) as [H1 H2]. split; [lia |].
  constructor; [lia | exact H2].
Qed.

(** X26. The polling fallback remembers the newest time stamp it has seen:
    after any series of polls of a collection the remembered stamp is the
    maximum of the initial one and the stamps found, whatever polls failed
    or found nothing in between.  Polling again with a result already seen
    only queries the store: nothing is listed and nothing is emitted. *)
Theorem polling_announces_newer_stamps_only (db : backend)
    (timestamp modelName : string) (fs : list found) (last : Z) :
  let seen := (polls db timestamp modelName fs last).1 in
  seen = fold_left Z.max (stamps fs) last
  /\ last <= seen
  /\ (forall f, f ∈ fs ->
        poll db timestamp modelName f seen = (seen, [StoreFindOne modelName])).
Proof.
  cbn zeta. rewrite polls_last.
  destruct (fold_max_ge (stamps fs) last) as [H1 H2].
  split; [reflexivity |]. split; [exact H1 |].
  intros f Hf. unfold poll. destruct f as [| |[stamp|]]; try reflexivity.
  assert (Hs : stamp ∈ stamps fs).
  { unfold stamps. apply list_elem_of_omap. by exists (Document (Some stamp)). }
  rewrite Forall_forall in H2. specialize (H2 _ Hs).
  destruct (Z.ltb_spec (fold_left Z.max (stamps fs) last) stamp); [lia | reflexivity].
Qed.

(** A document stamped 7 is announced once. *)
Lemma polling_announces_stamp_once :
  let db := {| find := fun _ => inl []; getDashboardStats := None |} in
  poll db "t" "rides" (Document (Some 7))
       (polls db "t" "rides" [NoDocument; Document (Some 7); FindThrows] 5).1
  = (7, [StoreFindOne "rides"]).
Proof.
  cbn zeta.
  apply (proj2 (proj2 (polling_announces_newer_stamps_only
                         {| find := fun _ => inl []; getDashboardStats := None |}
                         "t" "rides"
                         [NoDocument; Document (Some 7); FindThrows] 5))
           (Document (Some 7))).
  right. left.
Defined.

End ServerFeedsFacts.
